(* ===== verification/_CoqProject ===== *)
-Q . S2P
Prelude.v
GoErrors.v
GoLib.v
Schema.v
Minio.v
S3.v
Logging.v
Factory.v
Contract.v
Sessions.v
MemMinio.v
MemSessions.v
LoggingTests.v
Scenarios.v
