(* ===== verification/Prelude.v ===== *)
(** * go-file-helper: a verification development

    The repository (src/) is a small Go layer over object storage.  Its
    parts, and how they interact:
    - src/schema/schema.go: the [Service] interface (Store, Delete,
      GetPublicURL) and the [FileInfo] and [Credentials] structs;
    - src/s3/service.go: [*s3.Service], the implementation over the
      minio-go client, and its constructor [s3.NewService], which checks
      that the bucket exists;
    - src/logging.go: [*loggingMiddleware], a decorator holding a logger
      and the next [Service]; each method defers a closure that logs the
      call, then delegates;
    - src/service.go: the factory [NewService(typ, creds, logger)], which
      builds the S3 service for "s3" and wraps it when a logger is given.
    A caller holds one [Service] value; calls go through the middleware
    (if any) to the adapter, which calls the storage client.

    ** The files
    - Prelude.v (this file): the effect monad [GoM] (state passing with
      Go panics, and [go_defer] for Go's [defer], which runs on the panic
      path too), its notation scope [go_scope], the frame lemmas that
      relate start and end states, the hint databases [go] and [go_rw],
      and the tactic [go_frame_t].
    - GoErrors.v: Go errors and github.com/pkg/errors: [ErrNew] is
      [errors.New] (with the pointer identity sentinels are compared by),
      [Wrap]/[Wrapf], [Error] (err.Error()) and [Cause].
    - GoLib.v: the standard library the adapter calls, following the Go
      code: [filepath.Ext], [filepath.Base], [mime.TypeByExtension],
      [url.Values], [time.Hour], and [subMono], the int64 difference of
      two monotonic clock readings behind [time.Since], with its
      wrap-around and saturation written out.
    - Schema.v: [FileInfo], [Credentials], the world (clock, remote store,
      MIME table, log sinks), [time.Now]/[time.Since], nil dereference,
      go-kit's [Log], and [Service], a Go interface value: nil, or a
      dynamic type ([*s3.Service], [*loggingMiddleware], or an external
      backend) holding a pointer that may itself be nil.
    - Minio.v: [MinioAPI], the class of the five minio-go calls the
      adapter makes, and [MinioLaws], what the theorems assume of them.
    - S3.v (Module S3): [Store], [Delete], [GetPublicURL], [NewService] of
      src/s3/service.go, with the receiver as a possibly nil pointer.
    - Logging.v: the three [loggingMiddleware] methods and the dispatch
      [Service_Store]/[_Delete]/[_GetPublicURL] of an interface call,
      recursive through stacked middlewares.
    - Factory.v (Module Factory): [NewService] of src/service.go.
    - Contract.v: the abstract specification of a [Service] (spec 4.1
      and 7) as [StorageContract], and the refinement theorems.
    - Sessions.v: a caller's sequence of calls on one handle ([run_op],
      [run_ops]), the well-formedness of a handle ([wf_service]: no nil
      interface, pointer or logger), [returns_appending], the property of
      a call that returns, touches only the environment and appends log
      lines, closed under the monad and [defer], and [usable], the
      handles whose calls have it: an adapter, an external backend whose
      methods have it, or a middleware over a usable handle.
    - MemMinio.v (Module Mem): an in-memory client that implements
      [MinioAPI] with minio-go's argument checks and messages, and
      satisfies [MinioLaws].
    - MemSessions.v: the worlds a session reaches over the in-memory
      client ([reachable], one returning call per step), the invariant
      on the content types of stored objects.
    - LoggingTests.v: src/logging_test.go: the mock backend of
      [mockService], the test tables, [assertLogging] over the k=v words
      of a logged line, and the three tests.
    - Scenarios.v: the repository's Go tests of src/s3 and src/ replayed
      on the model (plain examples, not theorems about every input), round
      trips over the in-memory store, and the witnesses.

    ** What the theorems show
    - Refinement (Contract.v): the S3 adapter implements the contract for
      any client obeying [MinioLaws]; a middleware around a service that
      implements it implements it too; the factory's handle implements it
      exactly when the factory reports no error.
    - The factory (Factory.v): unsupported types give the nil interface
      and the sentinel; when the adapter cannot be built the factory
      still returns a non-nil handle with the error (Go's typed nil), and
      that handle panics when used.
    - The adapter (S3.v): the result of every method on every branch, the
      wrapped error messages and their causes, the arguments given to the
      client (MIME type, one-day expiry, content disposition with the
      base name), the creation time within the call, and the
      constructor's three failures.
    - The middleware (Logging.v): decoration is transparent on the
      success, error and panic paths, appends exactly one log line per
      layer with the named results, and logs a non-negative duration.
    - Sessions (Sessions.v): the factory returns a well-formed handle
      exactly when it returns no error (a type property of its result);
      every call on a usable handle returns (liveness); decorating the
      handle leaves the results and the storage state of a whole session
      unchanged and adds exactly one line per call on the new sink (trace
      equivalence).  Usable handles include every well-formed handle and
      any backend outside the repository that behaves, such as the mocks
      of the tests.
    - Errors (Factory.v, Sessions.v): every error of the factory unwraps
      with [Cause] to a sentinel or to an error of the storage client;
      the handle returned with the error of a failed construction panics
      on the first call of any session, after a log line reporting no
      error.
    - Durations (Logging.v): the logged [took] is never negative on a
      monotonic clock, and for int64 clock readings it is the elapsed
      time saturated at the bounds of [time.Duration]
      ([GoLib.subMono_saturates] relates Go's wrap-around code to that
      clamp).
    - Invariant (MemSessions.v): by rule induction on [reachable], every
      stored object keeps the MIME type of its name's extension as
      content type.
    - Tests (LoggingTests.v, Scenarios.v): the assertions of the logging
      tests hold for every file name and every result of the mocked
      backend, not only for the cases of their tables; a stored object
      reads back and a deleted one is gone.

    ** Bounds and recursion
    No definition needs fuel: the dispatch recurses structurally on the
    decoration depth, the path scans on the characters of the path, and
    the error functions on the wrap chain.  Integers (int64 sizes, time
    in nanoseconds) are kept as [Z], with the int64 range [in_int64]
    where a bound is stated; the one int64 subtraction the code relies
    on, inside [time.Since], is modelled with its wrap-around
    ([wrap64]); no other arithmetic of the sources can overflow (the
    only constant product, [time.Hour*24], is checked in
    [S3.url_expiry_value]); the 5 TiB upload limit belongs to the client
    ([Mem.maxSinglePutObjectSize] in the in-memory one).
    Sessions are finite lists of calls, so [run_ops] recurses on the
    list; [reachable] is an inductive relation, and its invariants are
    proved by rule induction.

    ** Not modelled
    The network behaviour of minio-go (only its interface and laws; the
    in-memory client stands in for a server), go-kit's logfmt encoding
    (a log line is kept as its list of key/values; only the k=v words
    the logging tests split it into are given), wall-clock time (a
    monotonic clock in the world; the texts of durations and URLs are
    parameters of the logging tests, which never read the first and
    compare the second with [url.String()]), the consumption of an [io.Reader]
    shared across calls (a reader is the list of its bytes), the
    generated mocks (any external backend is [SvcExternal], and the
    session theorems hold for every one that satisfies
    [impl_appending]), and concurrency: the spec gives the components no
    shared mutable state, and each call is a sequential computation over
    the world.  The sources of minio-go, go-kit, go-logfmt and the mocks
    are not part of the repository, so their behaviour beyond what the
    code calls cannot be translated from source; the MIME table is the
    system's, read from files the program does not own, and is part of
    the world.

    ** Plan for extension
    Every line of src/ that is not a package or import clause is
    translated.  What remains lies outside the repository (see Not
    modelled): the byte-level logfmt encoding of go-kit, with which the
    quoting of a file name holding a quote or a space could be stated on
    the logged text, and the case-insensitive fallback of
    [mime.TypeByExtension] against the system's MIME files. *)

From stdpp Require Export base strings gmap list.
From Stdlib Require Export ZArith Lia.

(** ** Outcomes of a Go call

    A Go function either returns its results or panics (a nil pointer
    dereference, a method call on a nil interface).  Deferred functions
    still run when the body panics; [Panicked] carries the runtime's
    message. *)
Inductive Outcome (A : Type) : Type :=
| Returned (a : A)
| Panicked (msg : string).
Arguments Returned {A} a.
Arguments Panicked {A} msg.

(** The effect monad of the model: explicit state passing over a world
    [S] (the clock, the remote store, the log sinks) with Go panics. *)
Definition GoM (S A : Type) : Type := S -> S * Outcome A.

Section GoM.
Context {S : Type}.

Definition go_ret {A} (a : A) : GoM S A := fun s => (s, Returned a).

Definition go_bind {A B} (m : GoM S A) (k : A -> GoM S B) : GoM S B :=
  fun s =>
    let '(s', o) := m s in
    match o with
    | Returned a => k a s'
    | Panicked p => (s', Panicked p)
    end.

Definition go_panic {A} (msg : string) : GoM S A := fun s => (s, Panicked msg).

(** A call into a library that never panics, as a state transformer. *)
Definition go_lift {A} (f : S -> S * A) : GoM S A :=
  fun s => let '(s', a) := f s in (s', Returned a).

Definition go_gets {A} (f : S -> A) : GoM S A := fun s => (s, Returned (f s)).

Definition go_modify (f : S -> S) : GoM S unit := fun s => (f s, Returned tt).

(** [defer d body]: the Go statement [defer d(...)] at the top of a
    function whose remaining body is [body].  The deferred call sees
    how the body ended; a panic of the deferred call replaces the
    outcome, otherwise the body's outcome is kept. *)
Definition go_defer {A} (d : Outcome A -> GoM S unit) (body : GoM S A) : GoM S A :=
  fun s =>
    let '(s1, o) := body s in
    let '(s2, o') := d o s1 in
    (s2, match o' with Returned _ => o | Panicked p => Panicked p end).
End GoM.

Declare Scope go_scope.
Delimit Scope go_scope with go.
Notation "x <- m ;; k" := (go_bind m (fun x => k))
  (at level 100, m at next level, right associativity) : go_scope.
Notation "m ;; k" := (go_bind m (fun _ => k))
  (at level 100, right associativity) : go_scope.

(** ** Generic facts about the monad *)

Create HintDb go.
Create Rewrite HintDb go_rw.

Section GoMFacts.
Context {S : Type}.

Lemma go_bind_ret_l {A B} (a : A) (k : A -> GoM S B) :
  go_bind (go_ret a) k = k a.
Proof. reflexivity. Qed.

Lemma go_bind_run {A B} (m : GoM S A) (k : A -> GoM S B) s :
  go_bind m k s =
    match m s with
    | (s', Returned a) => k a s'
    | (s', Panicked p) => (s', Panicked p)
    end.
Proof. unfold go_bind. destruct (m s) as [s' []]; reflexivity. Qed.

Lemma go_bind_assoc {A B C} (m : GoM S A) (k : A -> GoM S B) (h : B -> GoM S C) :
  forall s, go_bind (go_bind m k) h s = go_bind m (fun a => go_bind (k a) h) s.
Proof. intros s. unfold go_bind. destruct (m s) as [s' []]; reflexivity. Qed.

(** [m] relates every start state to its end state by [R]. *)
Definition go_frame {A} (R : S -> S -> Prop) (m : GoM S A) : Prop :=
  forall s, R s (fst (m s)).

Context (R : relation S) `{!PreOrder R}.

Lemma go_frame_ret {A} (a : A) : go_frame R (go_ret a).
Proof. intros s. simpl. reflexivity. Qed.

Lemma go_frame_panic {A} msg : go_frame R (@go_panic S A msg).
Proof. intros s. simpl. reflexivity. Qed.

Lemma go_frame_bind {A B} (m : GoM S A) (k : A -> GoM S B) :
  go_frame R m -> (forall a, go_frame R (k a)) -> go_frame R (go_bind m k).
Proof.
  intros Hm Hk s. specialize (Hm s). unfold go_bind.
  destruct (m s) as [s' []]; simpl in *; [|done].
  etrans; [exact Hm | apply Hk].
Qed.

Lemma go_frame_gets {A} (f : S -> A) : go_frame R (go_gets f).
Proof. intros s. simpl. reflexivity. Qed.

Lemma go_frame_modify (f : S -> S) :
  (forall s, R s (f s)) -> go_frame R (go_modify f).
Proof. intros Hf s. apply Hf. Qed.

Lemma go_frame_lift {A} (f : S -> S * A) :
  (forall s, R s (fst (f s))) -> go_frame R (go_lift f).
Proof. intros Hf s. specialize (Hf s). unfold go_lift. by destruct (f s). Qed.

Lemma go_frame_defer {A} (d : Outcome A -> GoM S unit) (body : GoM S A) :
  go_frame R body -> (forall o, go_frame R (d o)) -> go_frame R (go_defer d body).
Proof.
  intros Hb Hd s. specialize (Hb s). unfold go_defer.
  destruct (body s) as [s1 o]. specialize (Hd o s1).
  destruct (d o s1) as [s2 o']. simpl in *. by etrans.
Qed.
End GoMFacts.

Lemma go_frame_weaken {S A} (R R' : relation S) (m : GoM S A) :
  (forall s s', R s s' -> R' s s') -> go_frame R m -> go_frame R' m.
Proof. intros HR Hm s. apply HR, Hm. Qed.

#[export] Hint Resolve go_frame_ret go_frame_panic go_frame_gets go_frame_bind
  go_frame_lift go_frame_defer : go.

(** Prove [go_frame R m] by following the structure of [m]; the calls at
    the leaves are left to the [go] hints. *)
Ltac go_frame_t :=
  repeat match goal with
  | |- PreOrder _ => typeclasses eauto
  | |- go_frame _ (go_bind _ _) => apply go_frame_bind; [..|intros ?]
  | |- go_frame _ (go_defer _ _) => apply go_frame_defer; [..|intros ?]
  | |- go_frame _ (go_ret _) => apply go_frame_ret
  | |- go_frame _ (go_panic _) => apply go_frame_panic
  | |- go_frame _ (go_gets _) => apply go_frame_gets
  | |- go_frame _ (match ?x with _ => _ end) => destruct x
  | |- go_frame _ (if ?b then _ else _) => destruct b
  | |- go_frame _ (let _ := _ in _) => cbv zeta
  end; eauto with go.

(** Run a monadic term: expose the binds and the pairs they destruct. *)
Ltac go_unfold :=
  cbn [go_bind go_ret go_panic go_lift go_gets go_modify go_defer fst snd] in *.

(** ** Generic facts about strings and options *)

(** [simpl] does not unfold [String.append]; this is its step equation. *)
Lemma string_app_cons (x : Ascii.ascii) (a b : string) :
  (String x a +:+ b = String x (a +:+ b))%stdpp.
Proof. reflexivity. Qed.

Lemma string_app_assoc (a b c : string) :
  ((a +:+ b) +:+ c = a +:+ (b +:+ c))%stdpp.
Proof. induction a as [|x a IH]; [done|]. by rewrite !string_app_cons, IH. Qed.

Lemma string_app_nil_r (a : string) : (a +:+ "")%stdpp = a.
Proof. induction a as [|x a IH]; [done|]. by rewrite string_app_cons, IH. Qed.

#[export] Hint Rewrite string_app_cons string_app_assoc string_app_nil_r : go_rw.
