(* ===== verification/GoErrors.v ===== *)
(** * Go error values and the [github.com/pkg/errors] wrappers

    The sources build every error with [errors.New] (sentinels and the
    errors of the storage client) and decorate them with [errors.Wrap]
    and [errors.Wrapf].  This file models those values: an error is
    either a fundamental error, with the identity Go compares by pointer,
    or a message wrapped around a cause.  [Error] is the string Go's
    [err.Error()] returns and [Cause] is [errors.Cause], which walks the
    chain down to its root. *)

From S2P Require Import Prelude.

Inductive error : Type :=
| ErrNew (id : positive) (msg : string)
| ErrWithMessage (cause : error) (msg : string).

#[export] Instance error_eq_dec : EqDecision error.
Proof. solve_decision. Defined.

Local Open Scope stdpp_scope.

(** [err.Error()]: [withMessage] prints "msg: cause". *)
Fixpoint Error (e : error) : string :=
  match e with
  | ErrNew _ m => m
  | ErrWithMessage c m => m +:+ ": " +:+ Error c
  end.

(** [errors.Cause]. *)
Fixpoint Cause (e : error) : error :=
  match e with
  | ErrNew _ _ => e
  | ErrWithMessage c _ => Cause c
  end.

(** [errors.Wrap(err, message)] and [errors.Wrapf]: nil stays nil.  The
    format string of [Wrapf] is expanded by the caller. *)
Definition Wrap (err : option error) (message : string) : option error :=
  match err with
  | None => None
  | Some c => Some (ErrWithMessage c message)
  end.

Definition Wrapf := Wrap.

(** The string a Go value of type [error] prints, [nil] included: the
    logfmt encoder of go-kit writes a nil value as "null". *)
Definition error_text (e : option error) : string :=
  match e with
  | None => "null"
  | Some e => Error e
  end.

Lemma Cause_idem e : Cause (Cause e) = Cause e.
Proof. by induction e. Qed.

Lemma Cause_root e : exists id m, Cause e = ErrNew id m.
Proof. induction e as [id m|c IH m]; [by eexists _, _ | exact IH]. Qed.

Lemma Wrap_some c m : Wrap (Some c) m = Some (ErrWithMessage c m).
Proof. reflexivity. Qed.

Lemma Wrap_none m : Wrap None m = None.
Proof. reflexivity. Qed.

(** Wrapping keeps the root cause inspectable. *)
Lemma Cause_wrap c m : Cause (ErrWithMessage c m) = Cause c.
Proof. reflexivity. Qed.

Lemma Error_wrap c m : Error (ErrWithMessage c m) = m +:+ ": " +:+ Error c.
Proof. reflexivity. Qed.

#[export] Hint Rewrite Cause_idem Wrap_some Wrap_none Cause_wrap Error_wrap : go_rw.
