(* ===== verification/GoLib.v ===== *)
(** * The Go standard library as the sources use it

    [path/filepath.Ext] and [path/filepath.Base] (Unix: the separator is
    '/'), [mime.TypeByExtension] over the process's MIME table,
    [net/url.Values] with [Set], and the [time.Duration] constants.  Each
    function follows the Go library's code: [Ext] and [Base] scan the
    path from its end exactly as the Go loops do. *)

From S2P Require Import Prelude.
From Stdlib Require Import Ascii.

Local Open Scope stdpp_scope.

Definition slash : ascii := "/"%char.
Definition dot : ascii := "."%char.

(** [os.IsPathSeparator]. *)
Definition IsPathSeparator (c : ascii) : bool := Ascii.eqb c slash.

(** The loop of [filepath.Ext] over the characters of the path taken from
    the last one: [acc] holds [path[i+1:]]. *)
Fixpoint ext_scan (r acc : list ascii) : list ascii :=
  match r with
  | [] => []
  | c :: r' =>
      if IsPathSeparator c then []
      else if Ascii.eqb c dot then c :: acc
      else ext_scan r' (c :: acc)
  end.

Definition Ext (path : string) : string :=
  String.string_of_list_ascii (ext_scan (rev (String.list_ascii_of_string path)) []).

(** [filepath.Base]: strip trailing separators, keep the last element;
    "" gives "." and a path of separators only gives "/". *)
Fixpoint strip_trailing (r : list ascii) : list ascii :=
  match r with
  | c :: r' => if IsPathSeparator c then strip_trailing r' else r
  | [] => []
  end.

Fixpoint last_element (r : list ascii) : list ascii :=
  match r with
  | c :: r' => if IsPathSeparator c then [] else c :: last_element r'
  | [] => []
  end.

Definition Base (path : string) : string :=
  if String.eqb path "" then "."
  else match last_element (strip_trailing (rev (String.list_ascii_of_string path))) with
       | [] => String slash EmptyString
       | e => String.string_of_list_ascii (rev e)
       end.

(** [mime.TypeByExtension]: the table is the process's (built in and
    read from the system's mime.types at first use); a lookup of the
    extension as given, then of its lower-case form; "" when unknown. *)
Definition ascii_lower (c : ascii) : ascii :=
  let n := nat_of_ascii c in
  if (65 <=? n) && (n <=? 90) then ascii_of_nat (n + 32) else c.

Definition ToLower (s : string) : string :=
  String.string_of_list_ascii (map ascii_lower (String.list_ascii_of_string s)).

Definition TypeByExtension (table : gmap string string) (ext : string) : string :=
  match table !! ext with
  | Some t => t
  | None => match table !! ToLower ext with Some t => t | None => "" end
  end.

(** [url.Values] is a [map[string][]string]; [Set] replaces the list. *)
Abbreviation Values := (gmap string (list string)).
Definition Values_Set (k v : string) (m : Values) : Values := <[k := [v]]> m.

(** [*url.URL], the fields the callers read. *)
Record URL := mkURL {
  url_scheme : string;
  url_host : string;
  url_path : string;
  url_query : Values
}.

(** [time.Duration] counts nanoseconds. *)
Definition Second : Z := 1000000000.
Definition Hour : Z := 3600 * Second.

Local Open Scope Z_scope.

(** [int64]: two's complement, 64 bits.  [wrap64] is the result of an
    [int64] operation whose exact value is [z]. *)
Definition int64_min : Z := - 2 ^ 63.
Definition int64_max : Z := 2 ^ 63 - 1.
Definition in_int64 (z : Z) : Prop := int64_min <= z <= int64_max.
Definition wrap64 (z : Z) : Z := (z + 2 ^ 63) mod 2 ^ 64 - 2 ^ 63.

(** [minDuration] and [maxDuration] of time/time.go. *)
Definition minDuration : Z := int64_min.
Definition maxDuration : Z := int64_max.

(** [subMono(t, u)] of time/time.go, which [t.Sub(u)] and [time.Since(u)]
    use on two monotonic clock readings:
<<
    d := Duration(t - u)
    if d < 0 && t > u { return maxDuration }
    if d > 0 && t < u { return minDuration }
    return d
>> *)
Definition subMono (t u : Z) : Z :=
  let d := wrap64 (t - u) in
  if (d <? 0) && (u <? t) then maxDuration
  else if (0 <? d) && (t <? u) then minDuration
  else d.

(** ** Facts about the path functions *)

Lemma last_element_no_sep r : Forall (fun c => IsPathSeparator c = false) (last_element r).
Proof.
  induction r as [|c r IH]; simpl; [constructor|].
  destruct (IsPathSeparator c) eqn:E; [constructor | by constructor].
Qed.

(** The base name never holds a separator, except for the root "/". *)
Lemma Base_no_sep path :
  Base path = String slash EmptyString \/
  Forall (fun c => IsPathSeparator c = false) (String.list_ascii_of_string (Base path)).
Proof.
  unfold Base. destruct (String.eqb path "").
  { right. repeat constructor. }
  destruct (last_element _) as [|c e] eqn:E; [by left|right].
  rewrite String.list_ascii_of_string_of_list_ascii, <- E.
  apply Forall_rev, last_element_no_sep.
Qed.

Lemma ext_scan_shape r acc :
  ext_scan r acc = [] \/ exists t, ext_scan r acc = dot :: t.
Proof.
  revert acc. induction r as [|c r IH]; intros acc; simpl; [by left|].
  destruct (IsPathSeparator c); [by left|].
  destruct (Ascii.eqb_spec c dot) as [->|]; [right; by eexists|apply IH].
Qed.

(** An extension is empty or starts with a dot. *)
Lemma Ext_shape path :
  Ext path = "" \/ exists t, Ext path = String dot t.
Proof.
  unfold Ext. destruct (ext_scan_shape (rev (String.list_ascii_of_string path)) [])
    as [-> | [t ->]]; [by left | right; by eexists].
Qed.

Lemma list_ascii_of_string_app (a b : string) :
  String.list_ascii_of_string (a +:+ b) =
    String.list_ascii_of_string a ++ String.list_ascii_of_string b.
Proof. induction a as [|c a IH]; [done|]. simpl. by rewrite IH. Qed.

Lemma strip_trailing_keep c r : IsPathSeparator c = false -> strip_trailing (c :: r) = c :: r.
Proof. simpl. by intros ->. Qed.

Lemma last_element_upto l r :
  Forall (fun c => IsPathSeparator c = false) l ->
  last_element (l ++ slash :: r) = l.
Proof. induction 1 as [|c l Hc _ IH]; simpl; [done|]. by rewrite Hc, IH. Qed.

(** The base name of "dir/name" is "name" when "name" is a non-empty
    element. *)
Lemma Base_last (dir name : string) :
  name <> "" ->
  Forall (fun c => IsPathSeparator c = false) (String.list_ascii_of_string name) ->
  Base (dir +:+ String slash name) = name.
Proof.
  intros Hne Hn. unfold Base.
  destruct (String.eqb_spec (dir +:+ String slash name) "") as [E|_].
  { destruct dir; discriminate. }
  rewrite list_ascii_of_string_app. cbn [String.list_ascii_of_string].
  rewrite rev_app_distr. cbn [rev]. rewrite <- app_assoc. cbn [app].
  pose proof (Forall_rev Hn) as Hr.
  destruct (rev (String.list_ascii_of_string name)) as [|c t] eqn:E.
  { apply (f_equal (@rev ascii)) in E. rewrite rev_involutive in E.
    destruct name; [done | discriminate]. }
  inversion Hr as [|? ? Hc _]; subst.
  cbn [app]. rewrite strip_trailing_keep by done.
  rewrite app_comm_cons, last_element_upto by done.
  change (rev t ++ [c]) with (rev (c :: t)).
  by rewrite <- E, rev_involutive, String.string_of_list_ascii_of_string.
Qed.

(** ** Facts about int64 durations *)

Lemma wrap64_small z : in_int64 z -> wrap64 z = z.
Proof.
  unfold in_int64, int64_min, int64_max, wrap64. intros Hz.
  rewrite Z.mod_small; lia.
Qed.

Lemma wrap64_in_int64 z : in_int64 (wrap64 z).
Proof.
  unfold in_int64, int64_min, int64_max, wrap64.
  pose proof (Z.mod_pos_bound (z + 2 ^ 63) (2 ^ 64)). lia.
Qed.

(** On readings that fit an [int64], [subMono] is the exact difference
    saturated at the bounds of [Duration]: the wrap-around of [t - u]
    changes its sign exactly when the difference leaves the range. *)
Lemma subMono_saturates t u :
  in_int64 t -> in_int64 u ->
  subMono t u = Z.max minDuration (Z.min maxDuration (t - u)).
Proof.
  unfold subMono, minDuration, maxDuration, wrap64, in_int64, int64_min, int64_max.
  intros Ht Hu.
  destruct (Z.ltb_spec ((t - u + 2 ^ 63) mod 2 ^ 64 - 2 ^ 63) 0),
    (Z.ltb_spec u t), (Z.ltb_spec 0 ((t - u + 2 ^ 63) mod 2 ^ 64 - 2 ^ 63)), (Z.ltb_spec t u);
    simpl; Z.div_mod_to_equations; lia.
Qed.

Lemma subMono_in_int64 t u : in_int64 (subMono t u).
Proof.
  unfold subMono. pose proof (wrap64_in_int64 (t - u)).
  unfold minDuration, maxDuration, in_int64, int64_min, int64_max in *.
  repeat case_match; lia.
Qed.

(** A later reading never gives a negative duration, in range or not. *)
Lemma subMono_nonneg t u : u <= t -> 0 <= subMono t u.
Proof.
  unfold subMono, maxDuration, int64_max. intros Hle.
  destruct (Z.ltb_spec (wrap64 (t - u)) 0), (Z.ltb_spec u t), (Z.ltb_spec 0 (wrap64 (t - u))),
    (Z.ltb_spec t u); simpl; try lia.
  assert (t = u) as -> by lia. rewrite Z.sub_diag in *. vm_compute in *. congruence.
Qed.

Lemma subMono_refl t : subMono t t = 0.
Proof. unfold subMono. rewrite Z.sub_diag. reflexivity. Qed.
