(* ===== verification/Schema.v ===== *)
(** * The data model: [schema], the world, and [schema.Service] values

    [FileInfo] and [Credentials] are the structs of src/schema/schema.go.
    The world threads what the three operations read and change: the
    clock ([time.Now]), the remote object store behind the storage
    client, the process's MIME table, and the lines written to each log
    sink.  A value of the Go interface [schema.Service] is modelled as
    Go represents it: nil, or a dynamic type with a pointer that may be
    nil.  The dynamic types are the repository's two implementations,
    [*s3.Service] and [*loggingMiddleware], and any other backend given
    by its three methods ([SvcExternal], e.g. the generated mock). *)

From S2P Require Import Prelude GoErrors GoLib.

Local Open Scope stdpp_scope.
Local Open Scope Z_scope.

(** ** schema.FileInfo and schema.Credentials *)

Record FileInfo := mkFileInfo {
  FullPath : string;
  Bucket : string;
  Region : string;
  MimeType : string;
  Size : Z;          (** int64 *)
  CreatedAt : Z      (** time.Time, as a clock reading in nanoseconds *)
}.

(** The zero value [files.FileInfo{}]. *)
Definition FileInfo_zero : FileInfo := mkFileInfo "" "" "" "" 0 0.

Record Credentials := mkCredentials {
  Endpoint : string;
  ClientID : string;
  ClientSecret : string;
  UseSSL : bool;
  CredBucket : string;
  CredRegion : string
}.

(** ** Values the storage client library handles *)

(** An [io.Reader]: the bytes it will yield. *)
Definition Reader := list Byte.byte.

(** The [*minio.Client] built by [minio.New]: its connection settings. *)
Record Client := mkClient {
  cl_endpoint : string;
  cl_access_key : string;
  cl_secret_key : string;
  cl_secure : bool
}.

Record PutObjectOptions := mkPutObjectOptions { ContentType : string }.

(** A stored object and the remote store: bucket -> key -> object. *)
Record Object := mkObject { obj_data : list Byte.byte; obj_content_type : string }.
Abbreviation Remote := (gmap string (gmap string Object)).

(** ** Logging: go-kit's [log.Logger] *)

(** A logger is a nil interface or a logfmt logger writing to a sink. *)
Inductive Logger := LoggerNil | LogfmtLogger (sink : nat).

(** The values the middleware passes to [Log] as [keyvals ...interface{}]. *)
Inductive LogVal :=
| LStr (s : string)
| LInt (z : Z)
| LErr (e : option error)
| LURL (u : option URL)
| LDur (d : Z).

Definition LogEntry := (nat * list LogVal)%type.

(** ** The world *)

(** What the external collaborators keep: the clock, the remote store and
    the MIME table.  Calls into the storage client change only this part. *)
Record Env := mkEnv {
  env_clock : Z;
  env_remote : Remote;
  env_mime : gmap string string
}.

Record World := mkWorld {
  w_env : Env;
  w_logs : list LogEntry   (** every line logged, oldest first *)
}.

Abbreviation M := (GoM World).

(** A call into the storage client: it sees and changes the environment
    only, and does not panic. *)
Definition call {A} (f : Env -> Env * A) : M A :=
  fun w => let '(e', a) := f (w_env w) in (mkWorld e' (w_logs w), Returned a).

(** [time.Now()], a reading of the monotonic clock, and
    [time.Since(begin)], which is [time.Now().Sub(begin)]: [subMono] of
    the two readings. *)
Definition time_Now : M Z := go_gets (fun w => env_clock (w_env w)).
Definition time_Since (begin : Z) : M Z :=
  go_gets (fun w => subMono (env_clock (w_env w)) begin).

(** Dereferencing a pointer; nil panics as the Go runtime does. *)
Definition nil_deref_msg : string :=
  "runtime error: invalid memory address or nil pointer dereference".

Definition deref {A} (p : option A) : M A :=
  match p with Some a => go_ret a | None => go_panic nil_deref_msg end.

(** [logger.Log(keyvals...)]: a nil logger panics; the returned error is
    discarded by every caller. *)
Definition Log (l : Logger) (kvs : list LogVal) : M unit :=
  match l with
  | LoggerNil => go_panic nil_deref_msg
  | LogfmtLogger sink =>
      go_modify (fun w => mkWorld (w_env w) (w_logs w ++ [(sink, kvs)]))
  end.

(** ** schema.Service values *)

(** A backend outside this repository, given by its three methods. *)
Record ServiceImpl := mkServiceImpl {
  impl_Store : string -> Reader -> Z -> M (FileInfo * option error);
  impl_Delete : string -> M (option error);
  impl_GetPublicURL : string -> M (option URL * option error)
}.

(** [s3.Service], the struct of src/s3/service.go. *)
Record s3Service := mks3Service { s3_creds : Credentials; s3_client : Client }.

(** A [schema.Service] interface value and the [loggingMiddleware] struct
    of src/logging.go, which holds one. *)
Inductive Service : Type :=
| SvcNil
| SvcS3 (p : option s3Service)
| SvcLogging (p : option loggingMiddleware)
| SvcExternal (impl : ServiceImpl)
with loggingMiddleware : Type :=
| LoggingMiddleware (logger : Logger) (next : Service).

(** [svc == nil] compares the interface value, not the pointer in it. *)
Definition is_nil_interface (s : Service) : bool :=
  match s with SvcNil => true | _ => false end.

(** ** Facts shared by the components *)

(** How a computation may change the world.  [env_step]: only the
    environment changed and the clock did not run backwards (what a call
    into the storage client does).  [log_step]: besides, lines were
    appended to the logs and none removed. *)
Definition env_step (w w' : World) : Prop :=
  env_clock (w_env w) <= env_clock (w_env w') /\ w_logs w' = w_logs w.

Definition log_step (w w' : World) : Prop :=
  env_clock (w_env w) <= env_clock (w_env w') /\ exists l, w_logs w' = w_logs w ++ l.

#[export] Instance env_step_preorder : PreOrder env_step.
Proof.
  split; [intros w; red; split; [lia|done]|].
  intros w1 w2 w3 [??] [??]; split; [lia|congruence].
Qed.

#[export] Instance log_step_preorder : PreOrder log_step.
Proof.
  split; [intros w; split; [lia|exists []; by rewrite app_nil_r]|].
  intros w1 w2 w3 [? [l1 E1]] [? [l2 E2]]; split; [lia|].
  exists (l1 ++ l2). by rewrite E2, E1, app_assoc.
Qed.

Lemma env_step_log_step w w' : env_step w w' -> log_step w w'.
Proof. intros [? E]. split; [done|]. exists []. by rewrite E, app_nil_r. Qed.

Lemma call_run {A} (f : Env -> Env * A) w :
  call f w = (mkWorld (fst (f (w_env w))) (w_logs w), Returned (snd (f (w_env w)))).
Proof. unfold call. by destruct (f (w_env w)). Qed.

Lemma call_env_step {A} (f : Env -> Env * A) :
  (forall e, env_clock e <= env_clock (fst (f e))) -> go_frame env_step (call f).
Proof. intros Hf w. rewrite call_run. split; [apply Hf|done]. Qed.

Section ReflexiveFrames.
Context (R : relation World) `{!Reflexive R}.

Lemma deref_frame {A} (p : option A) : go_frame R (deref p).
Proof. destruct p; intros w; simpl; reflexivity. Qed.

Lemma time_Now_frame : go_frame R time_Now.
Proof. intros w; simpl; reflexivity. Qed.

Lemma time_Since_frame b : go_frame R (time_Since b).
Proof. intros w; simpl; reflexivity. Qed.
End ReflexiveFrames.

Lemma Log_log_step l kvs : go_frame log_step (Log l kvs).
Proof.
  destruct l as [|sink]; intros w; simpl; [reflexivity|].
  split; simpl; [lia|]. by exists [(sink, kvs)].
Qed.

(** Run a computation of the model symbolically. *)
Ltac run_t :=
  cbv [go_bind go_ret go_gets go_panic go_modify go_defer call deref time_Now
       time_Since Log] in *; cbn in *.

#[export] Hint Resolve Log_log_step : go.
#[export] Hint Extern 1 (go_frame _ (deref _)) => apply deref_frame; typeclasses eauto : go.
#[export] Hint Extern 1 (go_frame _ time_Now) => apply time_Now_frame; typeclasses eauto : go.
#[export] Hint Extern 1 (go_frame _ (time_Since _)) =>
  apply time_Since_frame; typeclasses eauto : go.
