(* ===== verification/Minio.v ===== *)
(** * The interface the S3 adapter needs from the storage client

    [github.com/minio/minio-go] is an external library: the adapter calls
    [minio.New] and four methods of [*minio.Client].  [MinioAPI] states
    them with their Go signatures (results as tuples, errors as
    [option error]); each method is a call that changes the environment
    (the remote store, the clock) and never the log sinks.  [MinioLaws]
    is what the adapter's theorems assume of any implementation: time
    does not run backwards, and a pre-signed URL comes with no error or
    with an error and no URL.  MemMinio.v gives an implementation. *)

From S2P Require Import Prelude GoErrors GoLib Schema.

Class MinioAPI := {
  (** [minio.New(endpoint, accessKeyID, secretAccessKey, secure)] *)
  minio_New : string -> string -> string -> bool -> Client * option error;
  (** [c.BucketExists(bucketName)] *)
  BucketExists : Client -> string -> Env -> Env * (bool * option error);
  (** [c.PutObject(bucketName, objectName, reader, objectSize, opts)] *)
  PutObject : Client -> string -> string -> Reader -> Z -> PutObjectOptions ->
              Env -> Env * (Z * option error);
  (** [c.RemoveObject(bucketName, objectName)] *)
  RemoveObject : Client -> string -> string -> Env -> Env * option error;
  (** [c.PresignedGetObject(bucketName, objectName, expires, reqParams)] *)
  PresignedGetObject : Client -> string -> string -> Z -> Values ->
                       Env -> Env * (option URL * option error)
}.

(** A call whose result is ignored here never sets the clock back. *)
Definition env_clock_mono {A} (f : Env -> Env * A) : Prop :=
  forall e, (env_clock e <= env_clock (fst (f e)))%Z.

Class MinioLaws `{MinioAPI} := {
  BucketExists_clock c b : env_clock_mono (BucketExists c b);
  PutObject_clock c b k r n o : env_clock_mono (PutObject c b k r n o);
  RemoveObject_clock c b k : env_clock_mono (RemoveObject c b k);
  PresignedGetObject_clock c b k x v : env_clock_mono (PresignedGetObject c b k x v);
  PresignedGetObject_excl c b k x v e :
    let '(u, err) := snd (PresignedGetObject c b k x v e) in
    (err = None /\ is_Some u) \/ (is_Some err /\ u = None)
}.
