(* ===== verification/S3.v ===== *)
(** * The S3 adapter: src/s3/service.go

    [Store], [Delete] and [GetPublicURL] are the methods of [*s3.Service]
    (the receiver is a pointer, [None] when nil), [NewService] is the
    constructor.  They call the storage client through [MinioAPI] and
    wrap its errors with the messages of the source.  The theorems give
    each method's result on every branch, the errors' messages and root
    causes, the arguments handed to the client, and the constructor's
    fail-fast behaviour. *)

From S2P Require Import Prelude GoErrors GoLib Schema Minio.
From Stdlib Require Import Ascii.

Local Open Scope stdpp_scope.
Local Open Scope Z_scope.
Local Open Scope go_scope.

Module S3.

(** [ErrBucketNotExists], a sentinel created once by [errors.New]. *)
Definition ErrBucketNotExists : error := ErrNew 1 "bucket doesn't exist".

(** The double quote character, for the [%q]-free formats of the source. *)
Definition dquote : string := String "034"%char EmptyString.

(** The [Content-Disposition] value asked for in [GetPublicURL]. *)
Definition content_disposition (basename : string) : string :=
  "attachment; filename=" +:+ dquote +:+ basename +:+ dquote.

(** The validity of the pre-signed URL: [time.Hour*24]. *)
Definition url_expiry : Z := Hour * 24.

Section Methods.
Context `{MinioAPI}.

Definition Store (s3 : option s3Service) (fname : string) (r : Reader) (size : Z)
    : M (FileInfo * option error) :=
  let ext := Ext fname in
  mtype <- go_gets (fun w => TypeByExtension (env_mime (w_env w)) ext) ;;
  let opts := mkPutObjectOptions mtype in
  s <- deref s3 ;;
  res <- call (PutObject (s3_client s) (CredBucket (s3_creds s)) fname r size opts) ;;
  let '(actualSize, err) := res in
  match err with
  | Some _ =>
      go_ret (FileInfo_zero, Wrapf err ("failed to store file '" +:+ fname +:+ "'"))
  | None =>
      now <- time_Now ;;
      go_ret (mkFileInfo fname (CredBucket (s3_creds s)) (CredRegion (s3_creds s))
                mtype actualSize now, None)
  end.

Definition Delete (s3 : option s3Service) (fname : string) : M (option error) :=
  s <- deref s3 ;;
  err <- call (RemoveObject (s3_client s) (CredBucket (s3_creds s)) fname) ;;
  match err with
  | Some _ => go_ret (Wrapf err ("cannot delete '" +:+ fname +:+ "'"))
  | None => go_ret err
  end.

Definition GetPublicURL (s3 : option s3Service) (fname : string)
    : M (option URL * option error) :=
  let basename := Base fname in
  let cdHeader := content_disposition basename in
  let reqParams := Values_Set "response-content-disposition" cdHeader ∅ in
  s <- deref s3 ;;
  res <- call (PresignedGetObject (s3_client s) (CredBucket (s3_creds s)) fname
                 url_expiry reqParams) ;;
  let '(url, err) := res in
  match err with
  | Some _ =>
      go_ret (None, Wrapf err ("unable to get S3 pre-signed URL for file '" +:+ fname +:+ "'"))
  | None => go_ret (url, None)
  end.

Definition NewService (creds : Credentials) : M (option s3Service * option error) :=
  let '(client, err) := minio_New (Endpoint creds) (ClientID creds)
                          (ClientSecret creds) (UseSSL creds) in
  match err with
  | Some _ => go_ret (None, Wrap err "cannot create s3 client")
  | None =>
      res <- call (BucketExists client (CredBucket creds)) ;;
      let '(exists_, err) := res in
      match err with
      | Some _ => go_ret (None, Wrap err "bucket error")
      | None =>
          if negb exists_
          then go_ret (None, Wrapf (Some ErrBucketNotExists) ("bucket " +:+ CredBucket creds))
          else go_ret (Some (mks3Service creds client), None)
      end
  end.
End Methods.

Section Theorems.
Context `{MinioAPI}.

(** The MIME type [Store] sends and records. *)
Definition store_mtype (w : World) (fname : string) : string :=
  TypeByExtension (env_mime (w_env w)) (Ext fname).

(** C7: A successful write yields the FileInfo the spec asks for: the
    key, the configured bucket and region, the MIME type sent, the size
    the client reports and the time after the write. *)
Theorem Store_success s fname r size w e' n :
  PutObject (s3_client s) (CredBucket (s3_creds s)) fname r size
    (mkPutObjectOptions (store_mtype w fname)) (w_env w) = (e', (n, None)) ->
  Store (Some s) fname r size w =
    (mkWorld e' (w_logs w),
     Returned (mkFileInfo fname (CredBucket (s3_creds s)) (CredRegion (s3_creds s))
                 (store_mtype w fname) n (env_clock e'), None)).
Proof. intros HP. unfold Store, store_mtype in *. run_t. by rewrite HP. Qed.

(** C8: A failed write yields the zero FileInfo and the client's error
    wrapped with the file name. *)
Theorem Store_failure s fname r size w e' n err :
  PutObject (s3_client s) (CredBucket (s3_creds s)) fname r size
    (mkPutObjectOptions (store_mtype w fname)) (w_env w) = (e', (n, Some err)) ->
  Store (Some s) fname r size w =
    (mkWorld e' (w_logs w),
     Returned (FileInfo_zero,
               Some (ErrWithMessage err ("failed to store file '" +:+ fname +:+ "'")))).
Proof. intros HP. unfold Store, store_mtype in *. run_t. by rewrite HP. Qed.

(** C18: [Delete] passes the client's answer through [errors.Wrapf]: nil
    stays nil, an error is wrapped with the file name. *)
Theorem Delete_result s fname w :
  Delete (Some s) fname w =
    (mkWorld (fst (RemoveObject (s3_client s) (CredBucket (s3_creds s)) fname (w_env w)))
             (w_logs w),
     Returned (Wrap (snd (RemoveObject (s3_client s) (CredBucket (s3_creds s)) fname (w_env w)))
                    ("cannot delete '" +:+ fname +:+ "'"))).
Proof.
  unfold Delete. run_t.
  destruct (RemoveObject _ _ _ _) as [e' []]; reflexivity.
Qed.

Lemma url_expiry_value : url_expiry = 86400000000000.
Proof. reflexivity. Qed.

Lemma req_params_value b :
  Values_Set "response-content-disposition" (content_disposition b) ∅ =
  {[ "response-content-disposition" := ["attachment; filename=" +:+ dquote +:+ b +:+ dquote] ]}.
Proof. reflexivity. Qed.

(** The answer of [GetPublicURL] given the client's. *)
Definition url_answer (fname : string) (res : option URL * option error)
    : option URL * option error :=
  match res.2 with
  | None => (res.1, None)
  | Some c => (None, Some (ErrWithMessage c
                ("unable to get S3 pre-signed URL for file '" +:+ fname +:+ "'")))
  end.

Lemma GetPublicURL_run s fname w :
  GetPublicURL (Some s) fname w =
    let res := PresignedGetObject (s3_client s) (CredBucket (s3_creds s)) fname 86400000000000
                 {[ "response-content-disposition" :=
                      ["attachment; filename=" +:+ dquote +:+ Base fname +:+ dquote] ]}
                 (w_env w) in
    (mkWorld res.1 (w_logs w), Returned (url_answer fname res.2)).
Proof.
  unfold GetPublicURL. run_t. rewrite url_expiry_value, req_params_value.
  by destruct (PresignedGetObject _ _ _ _ _ _) as [e' [u [err|]]].
Qed.

(** C9: The pre-signed URL is requested for one day (86400 s, in
    nanoseconds) with the single query parameter
    [response-content-disposition: attachment; filename="<base name>"];
    on error no URL is returned and the error is wrapped. *)
Theorem GetPublicURL_request s fname w e' u err :
  PresignedGetObject (s3_client s) (CredBucket (s3_creds s)) fname 86400000000000
    {[ "response-content-disposition" :=
         ["attachment; filename=" +:+ dquote +:+ Base fname +:+ dquote] ]}
    (w_env w) = (e', (u, err)) ->
  GetPublicURL (Some s) fname w =
    (mkWorld e' (w_logs w),
     Returned (match err with
               | None => (u, None)
               | Some c => (None, Some (ErrWithMessage c
                   ("unable to get S3 pre-signed URL for file '" +:+ fname +:+ "'")))
               end)).
Proof. intros HP. rewrite GetPublicURL_run. simpl. by rewrite HP. Qed.

(** C16: For a key "dir/name", the download is offered under "name" alone,
    not under the full key. *)
Theorem GetPublicURL_download_name s dir name w :
  name <> "" ->
  Forall (fun c => IsPathSeparator c = false) (String.list_ascii_of_string name) ->
  GetPublicURL (Some s) (dir +:+ String slash name) w =
    let res := PresignedGetObject (s3_client s) (CredBucket (s3_creds s))
                 (dir +:+ String slash name) 86400000000000
                 {[ "response-content-disposition" :=
                      ["attachment; filename=" +:+ dquote +:+ name +:+ dquote] ]}
                 (w_env w) in
    (mkWorld res.1 (w_logs w), Returned (url_answer (dir +:+ String slash name) res.2)).
Proof. intros Hne Hn. by rewrite GetPublicURL_run, Base_last. Qed.

(** ** The constructor *)

Section NewService.
Context (creds : Credentials) (w : World).
Let client_of := minio_New (Endpoint creds) (ClientID creds) (ClientSecret creds)
                   (UseSSL creds).

(** C20: A client that cannot be created fails construction with its error wrapped; the bucket is not checked. *)
Theorem NewService_client_error c err :
  client_of = (c, Some err) ->
  NewService creds w = (w, Returned (None, Some (ErrWithMessage err "cannot create s3 client"))).
Proof. intros HC. unfold NewService. fold client_of. by rewrite HC. Qed.

(** C19: A failing bucket check fails construction with the client's error wrapped as a bucket error. *)
Theorem NewService_bucket_error c e' b err :
  client_of = (c, None) ->
  BucketExists c (CredBucket creds) (w_env w) = (e', (b, Some err)) ->
  NewService creds w =
    (mkWorld e' (w_logs w), Returned (None, Some (ErrWithMessage err "bucket error"))).
Proof. intros HC HB. unfold NewService. fold client_of. rewrite HC. run_t. by rewrite HB. Qed.

(** C10: A missing bucket fails construction with the sentinel, wrapped
    with the bucket's name. *)
Theorem NewService_bucket_missing c e' :
  client_of = (c, None) ->
  BucketExists c (CredBucket creds) (w_env w) = (e', (false, None)) ->
  NewService creds w =
    (mkWorld e' (w_logs w),
     Returned (None, Some (ErrWithMessage ErrBucketNotExists ("bucket " +:+ CredBucket creds)))).
Proof. intros HC HB. unfold NewService. fold client_of. rewrite HC. run_t. by rewrite HB. Qed.

(** C21: An existing bucket gives the service holding the credentials and the client. *)
Theorem NewService_success c e' :
  client_of = (c, None) ->
  BucketExists c (CredBucket creds) (w_env w) = (e', (true, None)) ->
  NewService creds w = (mkWorld e' (w_logs w), Returned (Some (mks3Service creds c), None)).
Proof. intros HC HB. unfold NewService. fold client_of. rewrite HC. run_t. by rewrite HB. Qed.
End NewService.

(** The constructor never panics and returns exactly one of a service
    and an error. *)
Theorem NewService_exclusive creds w :
  exists w', (exists s, NewService creds w = (w', Returned (Some s, None))) \/
             (exists err, NewService creds w = (w', Returned (None, Some err))).
Proof.
  unfold NewService.
  destruct (minio_New _ _ _ _) as [c [err|]]; [eauto|]. run_t.
  destruct (BucketExists _ _ _) as [e' [[] [err|]]]; simpl; eauto.
Qed.

(** ** Under the client's laws: the adapter writes no log line and
    never sets the clock back *)
Context `{!MinioLaws}.

Lemma Store_env_step p fname r size : go_frame env_step (Store p fname r size).
Proof. unfold Store. go_frame_t; apply call_env_step, PutObject_clock. Qed.

Lemma Delete_env_step p fname : go_frame env_step (Delete p fname).
Proof. unfold Delete. go_frame_t; apply call_env_step, RemoveObject_clock. Qed.

Lemma GetPublicURL_env_step p fname : go_frame env_step (GetPublicURL p fname).
Proof. unfold GetPublicURL. go_frame_t; apply call_env_step, PresignedGetObject_clock. Qed.

Lemma NewService_env_step creds : go_frame env_step (NewService creds).
Proof. unfold NewService. go_frame_t; apply call_env_step, BucketExists_clock. Qed.

(** C12: The creation time of a stored file lies between the start and the
    end of the [Store] call. *)
Theorem Store_CreatedAt_window p fname r size w w' fi :
  Store p fname r size w = (w', Returned (fi, None)) ->
  env_clock (w_env w) <= CreatedAt fi <= env_clock (w_env w').
Proof.
  intros HS. destruct p as [s|]; [|discriminate].
  unfold Store in HS. run_t.
  match type of HS with context [PutObject ?c ?b ?k ?rd ?n ?o ?e] =>
    pose proof (PutObject_clock c b k rd n o e) as Hc end.
  destruct (PutObject _ _ _ _ _ _ _) as [e' [n [err|]]]; simplify_eq/=; lia.
Qed.
End Theorems.

End S3.
