(* ===== verification/Logging.v ===== *)
(** * The logging middleware (src/logging.go) and interface dispatch

    [loggingMiddleware_Store], [_Delete] and [_GetPublicURL] are the three
    methods of [*loggingMiddleware]: each reads the clock, defers a
    closure that logs the method name, the file name, the named results
    and the elapsed time, and calls the same method on [mw.next].  The
    deferred closure reads the named results, which keep their zero
    values when the inner call panics, and it runs on the panic path too.

    [Service_Store], [Service_Delete] and [Service_GetPublicURL] are the
    method calls on a [schema.Service] interface value: they dispatch on
    the dynamic type, recursively through nested middlewares.

    The theorems: decoration is transparent (the outcome of the inner
    call is returned unchanged, the world changes only by one appended
    log line, on the success, error and panic paths alike), the line's
    content, one line per layer for a stack of middlewares, and the
    logged duration: non-negative, and for int64 clock readings the
    elapsed time saturated at the bounds of [time.Duration]. *)

From S2P Require Import Prelude GoErrors GoLib Schema Minio S3.

Local Open Scope stdpp_scope.
Local Open Scope Z_scope.
Local Open Scope go_scope.

(** The value a named result holds when the deferred closure runs. *)
Definition named {A} (zero : A) (o : Outcome A) : A :=
  match o with Returned a => a | Panicked _ => zero end.

(** The [keyvals] each method passes to [Log]. *)
Definition store_keyvals (fname : string) (fi : FileInfo) (err : option error) (took : Z) :=
  [LStr "method"; LStr "files.Store"; LStr "fname"; LStr fname;
   LStr "size"; LInt (Size fi); LStr "mimetype"; LStr (MimeType fi);
   LStr "err"; LErr err; LStr "took"; LDur took].

Definition delete_keyvals (fname : string) (err : option error) (took : Z) :=
  [LStr "method"; LStr "files.Delete"; LStr "fname"; LStr fname;
   LStr "err"; LErr err; LStr "took"; LDur took].

Definition url_keyvals (fname : string) (url : option URL) (err : option error) (took : Z) :=
  [LStr "method"; LStr "files.GetPublicURL"; LStr "fname"; LStr fname;
   LStr "url"; LURL url; LStr "err"; LErr err; LStr "took"; LDur took].

(** The methods of [*loggingMiddleware].  [logger] is [mw.logger] and
    [next_call] the call on [mw.next]; both panic when [mw] is nil. *)
Definition loggingMiddleware_Store (logger : option Logger)
    (next_call : M (FileInfo * option error)) (fname : string) : M (FileInfo * option error) :=
  begin <- time_Now ;;
  go_defer (fun o =>
      let '(fi, err) := named (FileInfo_zero, None) o in
      l <- deref logger ;;
      took <- time_Since begin ;;
      Log l (store_keyvals fname fi err took))
    next_call.

Definition loggingMiddleware_Delete (logger : option Logger)
    (next_call : M (option error)) (fname : string) : M (option error) :=
  begin <- time_Now ;;
  go_defer (fun o =>
      let err := named None o in
      l <- deref logger ;;
      took <- time_Since begin ;;
      Log l (delete_keyvals fname err took))
    next_call.

Definition loggingMiddleware_GetPublicURL (logger : option Logger)
    (next_call : M (option URL * option error)) (fname : string)
    : M (option URL * option error) :=
  begin <- time_Now ;;
  go_defer (fun o =>
      let '(url, err) := named (None, None) o in
      l <- deref logger ;;
      took <- time_Since begin ;;
      Log l (url_keyvals fname url err took))
    next_call.

Section Dispatch.
Context `{MinioAPI}.

(** [svc.Store(fname, r, size)] on an interface value. *)
Fixpoint Service_Store (svc : Service) (fname : string) (r : Reader) (size : Z)
    : M (FileInfo * option error) :=
  match svc with
  | SvcNil => go_panic nil_deref_msg
  | SvcS3 p => S3.Store p fname r size
  | SvcLogging (Some (LoggingMiddleware l next)) =>
      loggingMiddleware_Store (Some l) (Service_Store next fname r size) fname
  | SvcLogging None => loggingMiddleware_Store None (deref None) fname
  | SvcExternal impl => impl_Store impl fname r size
  end.

Fixpoint Service_Delete (svc : Service) (fname : string) : M (option error) :=
  match svc with
  | SvcNil => go_panic nil_deref_msg
  | SvcS3 p => S3.Delete p fname
  | SvcLogging (Some (LoggingMiddleware l next)) =>
      loggingMiddleware_Delete (Some l) (Service_Delete next fname) fname
  | SvcLogging None => loggingMiddleware_Delete None (deref None) fname
  | SvcExternal impl => impl_Delete impl fname
  end.

Fixpoint Service_GetPublicURL (svc : Service) (fname : string)
    : M (option URL * option error) :=
  match svc with
  | SvcNil => go_panic nil_deref_msg
  | SvcS3 p => S3.GetPublicURL p fname
  | SvcLogging (Some (LoggingMiddleware l next)) =>
      loggingMiddleware_GetPublicURL (Some l) (Service_GetPublicURL next fname) fname
  | SvcLogging None => loggingMiddleware_GetPublicURL None (deref None) fname
  | SvcExternal impl => impl_GetPublicURL impl fname
  end.
End Dispatch.

(** [&loggingMiddleware{logger, svc}] as a [schema.Service]. *)
Definition wrap (l : Logger) (svc : Service) : Service :=
  SvcLogging (Some (LoggingMiddleware l svc)).

(** Appending one log line to a sink. *)
Definition append_log (sink : nat) (kvs : list LogVal) (w : World) : World :=
  mkWorld (w_env w) (w_logs w ++ [(sink, kvs)]).

Lemma append_log_step sink kvs w w1 : log_step w w1 -> log_step w (append_log sink kvs w1).
Proof.
  intros [Hc [l E]]. split; [done|]. exists (l ++ [(sink, kvs)]).
  simpl. by rewrite E, app_assoc.
Qed.

(** A stack of middlewares, outermost first, each logging to its sink. *)
Definition decorate (sinks : list nat) (svc : Service) : Service :=
  foldr (fun sink s => wrap (LogfmtLogger sink) s) svc sinks.

(** ** Running one middleware *)

Section Middleware.
Context (sink : nat).

Lemma loggingMiddleware_Store_run next_call fname w :
  loggingMiddleware_Store (Some (LogfmtLogger sink)) next_call fname w =
    let '(w1, o) := next_call w in
    let '(fi, err) := named (FileInfo_zero, None) o in
    (append_log sink (store_keyvals fname fi err
                        (subMono (env_clock (w_env w1)) (env_clock (w_env w)))) w1, o).
Proof.
  unfold loggingMiddleware_Store. run_t.
  destruct (next_call w) as [w1 o]. by destruct (named _ o).
Qed.

Lemma loggingMiddleware_Delete_run next_call fname w :
  loggingMiddleware_Delete (Some (LogfmtLogger sink)) next_call fname w =
    let '(w1, o) := next_call w in
    (append_log sink (delete_keyvals fname (named None o)
                        (subMono (env_clock (w_env w1)) (env_clock (w_env w)))) w1, o).
Proof. unfold loggingMiddleware_Delete. run_t. by destruct (next_call w). Qed.

Lemma loggingMiddleware_GetPublicURL_run next_call fname w :
  loggingMiddleware_GetPublicURL (Some (LogfmtLogger sink)) next_call fname w =
    let '(w1, o) := next_call w in
    let '(url, err) := named (None, None) o in
    (append_log sink (url_keyvals fname url err
                        (subMono (env_clock (w_env w1)) (env_clock (w_env w)))) w1, o).
Proof.
  unfold loggingMiddleware_GetPublicURL. run_t.
  destruct (next_call w) as [w1 o]. by destruct (named _ o).
Qed.
End Middleware.

Section Decoration.
Context `{MinioAPI}.

(** C5: Decoration is transparent for [Store]: the wrapped call runs on the
    same world, its outcome (result, error or panic) is returned
    unchanged, and the only other effect is one line appended to the
    logger's sink, holding the named results (zero after a panic). *)
Theorem decorator_transparent_Store sink svc fname r size w :
  Service_Store (wrap (LogfmtLogger sink) svc) fname r size w =
    let '(w1, o) := Service_Store svc fname r size w in
    (append_log sink (store_keyvals fname (fst (named (FileInfo_zero, None) o))
                        (snd (named (FileInfo_zero, None) o))
                        (subMono (env_clock (w_env w1)) (env_clock (w_env w)))) w1, o).
Proof.
  simpl. rewrite loggingMiddleware_Store_run.
  destruct (Service_Store svc fname r size w) as [w1 o]. by destruct (named _ o).
Qed.

(** C17: Decoration is transparent for [GetPublicURL]: the wrapped call's outcome is returned unchanged and one line with the URL (or none) and the error is appended. *)
Theorem decorator_transparent_GetPublicURL sink svc fname w :
  Service_GetPublicURL (wrap (LogfmtLogger sink) svc) fname w =
    let '(w1, o) := Service_GetPublicURL svc fname w in
    (append_log sink (url_keyvals fname (fst (named (None, None) o))
                        (snd (named (None, None) o))
                        (subMono (env_clock (w_env w1)) (env_clock (w_env w)))) w1, o).
Proof.
  simpl. rewrite loggingMiddleware_GetPublicURL_run.
  destruct (Service_GetPublicURL svc fname w) as [w1 o]. by destruct (named _ o).
Qed.

Lemma decorator_transparent_Delete sink svc fname w :
  Service_Delete (wrap (LogfmtLogger sink) svc) fname w =
    let '(w1, o) := Service_Delete svc fname w in
    (append_log sink (delete_keyvals fname (named None o)
                        (subMono (env_clock (w_env w1)) (env_clock (w_env w)))) w1, o).
Proof. simpl. apply loggingMiddleware_Delete_run. Qed.

(** C13: The elapsed time logged is never negative when the wrapped call
    does not set the clock back. *)
Theorem logged_duration_nonneg sink svc fname r size w w' o :
  env_clock (w_env w) <= env_clock (w_env (fst (Service_Store svc fname r size w))) ->
  Service_Store (wrap (LogfmtLogger sink) svc) fname r size w = (w', o) ->
  exists took, 0 <= took /\
    last (w_logs w') = Some (sink, store_keyvals fname (fst (named (FileInfo_zero, None) o))
                                    (snd (named (FileInfo_zero, None) o)) took).
Proof.
  simpl. rewrite loggingMiddleware_Store_run.
  destruct (Service_Store svc fname r size w) as [w1 o1]; simpl.
  destruct (named _ o1) as [fi err] eqn:En. intros Hc [= <- <-]. rewrite En.
  eexists; split; [|unfold append_log; simpl; by rewrite last_snoc]. by apply subMono_nonneg.
Qed.

(** C29: The logged duration is [time.Since(begin)] of the two clock
    readings: when both fit an [int64] it is the elapsed time saturated
    at the bounds of [time.Duration], so it never wraps around, and it
    always fits the [int64] of a [Duration]. *)
Theorem logged_duration_int64 sink svc fname r size w :
  in_int64 (env_clock (w_env w)) ->
  in_int64 (env_clock (w_env (fst (Service_Store svc fname r size w)))) ->
  exists took,
    last (w_logs (fst (Service_Store (wrap (LogfmtLogger sink) svc) fname r size w))) =
      Some (sink, store_keyvals fname
                    (fst (named (FileInfo_zero, None) (snd (Service_Store svc fname r size w))))
                    (snd (named (FileInfo_zero, None) (snd (Service_Store svc fname r size w))))
                    took) /\
    took = Z.max minDuration (Z.min maxDuration
             (env_clock (w_env (fst (Service_Store svc fname r size w))) - env_clock (w_env w))) /\
    in_int64 took.
Proof.
  simpl. rewrite loggingMiddleware_Store_run.
  destruct (Service_Store svc fname r size w) as [w1 o1]; simpl.
  destruct (named _ o1) as [fi err]. intros H0 H1. eexists; split_and!.
  - unfold append_log; simpl. by rewrite last_snoc.
  - by apply subMono_saturates.
  - apply subMono_in_int64.
Qed.

(** C6: A stack of middlewares over a service that writes no log line
    returns the service's outcome and appends exactly one line per
    layer, innermost first. *)
Theorem decorate_one_line_per_layer sinks svc fname r size w :
  w_logs (fst (Service_Store svc fname r size w)) = w_logs w ->
  exists lines,
    Service_Store (decorate sinks svc) fname r size w =
      (mkWorld (w_env (fst (Service_Store svc fname r size w))) (w_logs w ++ lines),
       snd (Service_Store svc fname r size w)) /\
    map fst lines = rev sinks.
Proof.
  intros Hlogs. induction sinks as [|sink sinks IH]; simpl.
  - exists []. rewrite app_nil_r, <- Hlogs.
    by destruct (Service_Store svc fname r size w) as [[e l] o].
  - destruct IH as [lines [Hrun Hfst]].
    rewrite loggingMiddleware_Store_run, Hrun. simpl.
    destruct (named _ _) as [fi err].
    eexists; split; [unfold append_log; simpl; by rewrite <- app_assoc|].
    rewrite List.map_app. simpl. f_equal. exact Hfst.
Qed.
End Decoration.
