(* ===== verification/Factory.v ===== *)
(** * The service factory: src/service.go

    [NewService typ creds logger] builds the S3 adapter for [typ = "s3"],
    rejects any other type with the sentinel [ErrUnsupportedType], and
    wraps the result in a [loggingMiddleware] when a logger is given.

    The source assigns the [*s3.Service] returned by [s3.NewService] to
    the interface variable [svc] before testing [svc == nil].  In Go an
    interface holding a nil pointer is not nil, so when [s3.NewService]
    fails the test does not fire: the factory returns a non-nil handle
    together with the error, and with a logger the handle is a non-nil
    middleware around the nil pointer.  The model keeps this: [SvcS3 None]
    is such an interface value, and [is_nil_interface] is [svc == nil]. *)

From S2P Require Import Prelude GoErrors GoLib Schema Minio S3 Logging.

Local Open Scope stdpp_scope.
Local Open Scope go_scope.

Module Factory.

Definition ErrUnsupportedType : error := ErrNew 2 "the given service type is unsupported".

(** Lines 24-27: [if logger != nil { svc = &loggingMiddleware{logger, svc} }]. *)
Definition with_logger (logger : Logger) (svc : Service) : Service :=
  match logger with
  | LoggerNil => svc
  | LogfmtLogger _ => wrap logger svc
  end.

Section NewService.
Context `{MinioAPI}.

Definition NewService (typ : string) (creds : Credentials) (logger : Logger)
    : M (Service * option error) :=
  res <- (if decide (typ = "s3")
          then r <- S3.NewService creds ;;
               let '(p, err) := r in go_ret (SvcS3 p, err)
          else go_ret (SvcNil, None)) ;;
  let '(svc, err) := res in
  if is_nil_interface svc
  then go_ret (svc, Wrapf (Some ErrUnsupportedType) ("service '" +:+ typ +:+ "' unsupported"))
  else go_ret (with_logger logger svc, err).
End NewService.

Section Theorems.
Context `{MinioAPI}.

(** C11: An unknown service type yields the nil interface and the sentinel
    wrapped with the type's name; nothing is called. *)
Theorem NewService_unsupported typ creds logger w :
  typ <> "s3" ->
  NewService typ creds logger w =
    (w, Returned (SvcNil, Some (ErrWithMessage ErrUnsupportedType
                                 ("service '" +:+ typ +:+ "' unsupported")))).
Proof. intros Hne. unfold NewService. by destruct (decide _). Qed.

(** C22: A constructed adapter is returned as is when no logger is given,
    and behind exactly one [loggingMiddleware] holding the logger when one
    is given. *)
Theorem NewService_s3_success creds logger w w' s :
  S3.NewService creds w = (w', Returned (Some s, None)) ->
  NewService "s3" creds logger w =
    (w', Returned (match logger with
                   | LoggerNil => SvcS3 (Some s)
                   | LogfmtLogger k =>
                       SvcLogging (Some (LoggingMiddleware (LogfmtLogger k) (SvcS3 (Some s))))
                   end, None)).
Proof. intros HS. unfold NewService. simpl. run_t. rewrite HS. by destruct logger. Qed.

(** C2: When the adapter cannot be built, the factory still returns a
    non-nil handle (an interface holding a nil [*s3.Service], wrapped
    when a logger is given) together with the error. *)
Theorem NewService_s3_failure_non_nil creds logger w w' err :
  S3.NewService creds w = (w', Returned (None, Some err)) ->
  NewService "s3" creds logger w = (w', Returned (with_logger logger (SvcS3 None), Some err)) /\
  is_nil_interface (with_logger logger (SvcS3 None)) = false.
Proof.
  intros HS. unfold NewService. simpl. run_t. rewrite HS.
  by destruct logger.
Qed.

(** C27: Every error the factory returns unwraps with [errors.Cause] to a
    root the caller can branch on: the unsupported-type sentinel, the
    missing-bucket sentinel, or the error the storage client returned
    when it was created or asked whether the bucket exists. *)
Theorem NewService_error_cause typ creds logger w w' svc err :
  NewService typ creds logger w = (w', Returned (svc, Some err)) ->
  (typ <> "s3" /\ Cause err = ErrUnsupportedType) \/
  (typ = "s3" /\
   (let client := minio_New (Endpoint creds) (ClientID creds) (ClientSecret creds) (UseSSL creds) in
    (exists e0, snd client = Some e0 /\ Cause err = Cause e0) \/
    (exists e0, snd (snd (BucketExists (fst client) (CredBucket creds) (w_env w))) = Some e0 /\
                Cause err = Cause e0) \/
    Cause err = S3.ErrBucketNotExists)).
Proof.
  unfold NewService. destruct (decide (typ = "s3")) as [->|Hne]; run_t; intros Hrun.
  - right. split; [done|]. unfold S3.NewService in *.
    destruct (minio_New _ _ _ _) as [c [e0|]]; run_t; simplify_eq/=; [left; by eexists|].
    destruct (BucketExists c _ _) as [e' [[] [e0|]]]; simplify_eq/=;
      right; [left|left|right]; by try eexists.
  - simplify_eq/=. by left.
Qed.
End Theorems.

End Factory.
