(* ===== verification/Contract.v ===== *)
(** * The StorageService contract and its refinement

    The spec (sections 4.1 and 7) asks every [schema.Service] for: no
    panic; a zero [FileInfo] whenever [Store] reports an error; no URL
    with an error and a URL without one; the world changed only by the
    backend and by appended log lines, the clock never set back.
    [StorageContract] states these laws over the three methods of an
    implementation; [satisfies svc] asks them of an interface value.

    The refinement theorems: the S3 adapter satisfies the contract under
    the client's laws; a logging middleware around a service that
    satisfies it satisfies it too (decoration composes); the factory
    returns a satisfying handle exactly when it returns no error. *)

From S2P Require Import Prelude GoErrors GoLib Schema Minio S3 Logging Factory.

Local Open Scope stdpp_scope.
Local Open Scope Z_scope.

Definition store_post (w w' : World) (o : Outcome (FileInfo * option error)) : Prop :=
  log_step w w' /\
  match o with
  | Returned (fi, Some _) => fi = FileInfo_zero
  | Returned (_, None) => True
  | Panicked _ => False
  end.

Definition delete_post (w w' : World) (o : Outcome (option error)) : Prop :=
  log_step w w' /\ match o with Returned _ => True | Panicked _ => False end.

Definition url_post (w w' : World) (o : Outcome (option URL * option error)) : Prop :=
  log_step w w' /\
  match o with
  | Returned (u, Some _) => u = None
  | Returned (u, None) => is_Some u
  | Panicked _ => False
  end.

(** A computation run from [w] meets [post]. *)
Definition meets {A} (post : World -> World -> Outcome A -> Prop) (m : M A) : Prop :=
  forall w, post w (fst (m w)) (snd (m w)).

Record StorageContract
    (store : string -> Reader -> Z -> M (FileInfo * option error))
    (delete : string -> M (option error))
    (geturl : string -> M (option URL * option error)) : Prop := {
  contract_store fname r size : meets store_post (store fname r size);
  contract_delete fname : meets delete_post (delete fname);
  contract_url fname : meets url_post (geturl fname)
}.

Section Contract.
Context `{MinioAPI}.

Definition satisfies (svc : Service) : Prop :=
  StorageContract (Service_Store svc) (Service_Delete svc) (Service_GetPublicURL svc).

(** A world to run counterexamples from. *)
Definition empty_world : World := mkWorld (mkEnv 0 ∅ ∅) [].

(** A handle that panics on [Store] does not satisfy the contract. *)
Lemma Store_panics_not_satisfies svc fname r size w msg :
  snd (Service_Store svc fname r size w) = Panicked msg -> ~ satisfies svc.
Proof.
  intros Hp [Hs _ _]. specialize (Hs fname r size w) as [_ Hs]. by rewrite Hp in Hs.
Qed.

(** ** The S3 adapter refines the contract *)

Context `{!MinioLaws}.

Lemma s3_contract s : satisfies (SvcS3 (Some s)).
Proof.
  split; intros ? *; simpl.
  - intros w. pose proof (S3.Store_env_step (Some s) fname r size w) as Hf.
    split; [by apply env_step_log_step|]. unfold S3.Store. run_t.
    by destruct (PutObject _ _ _ _ _ _ _) as [e' [n [err|]]].
  - intros w. pose proof (S3.Delete_env_step (Some s) fname w) as Hf.
    split; [by apply env_step_log_step|]. unfold S3.Delete. run_t.
    by destruct (RemoveObject _ _ _ _) as [e' [err|]].
  - intros w. pose proof (S3.GetPublicURL_env_step (Some s) fname w) as Hf.
    split; [by apply env_step_log_step|]. unfold S3.GetPublicURL. run_t.
    pose proof (PresignedGetObject_excl (s3_client s) (CredBucket (s3_creds s)) fname
                  S3.url_expiry
                  (Values_Set "response-content-disposition"
                     (S3.content_disposition (Base fname)) ∅) (w_env w)) as Hx.
    destruct (PresignedGetObject _ _ _ _ _ _) as [e' [u [err|]]]; simpl in *;
      destruct Hx as [[? ?] | [? ?]]; by simplify_eq.
Qed.

(** ** Decoration preserves the contract *)

Lemma wrap_contract sink svc : satisfies svc -> satisfies (wrap (LogfmtLogger sink) svc).
Proof.
  intros [Hs Hd Hu]. split; intros ? * w; simpl.
  - rewrite loggingMiddleware_Store_run. specialize (Hs fname r size w).
    destruct (Service_Store svc fname r size w) as [w1 o], (named _ o).
    destruct Hs. split; [by apply append_log_step | done].
  - rewrite loggingMiddleware_Delete_run. specialize (Hd fname w).
    destruct (Service_Delete svc fname w) as [w1 o].
    destruct Hd. split; [by apply append_log_step | done].
  - rewrite loggingMiddleware_GetPublicURL_run. specialize (Hu fname w).
    destruct (Service_GetPublicURL svc fname w) as [w1 o], (named _ o).
    destruct Hu. split; [by apply append_log_step | done].
Qed.

Lemma with_logger_satisfies logger svc :
  satisfies svc -> satisfies (Factory.with_logger logger svc).
Proof. destruct logger; [done | apply wrap_contract]. Qed.

(** C3: The S3 adapter over any client that obeys [MinioLaws] implements
    the contract (no panic, zero FileInfo with every error, a URL exactly
    when there is no error, no clock rewind), and none of its methods
    writes a log line. *)
Theorem s3_satisfies s :
  satisfies (SvcS3 (Some s)) /\
  (forall fname r size w, w_logs (fst (Service_Store (SvcS3 (Some s)) fname r size w)) = w_logs w) /\
  (forall fname w, w_logs (fst (Service_Delete (SvcS3 (Some s)) fname w)) = w_logs w) /\
  (forall fname w, w_logs (fst (Service_GetPublicURL (SvcS3 (Some s)) fname w)) = w_logs w).
Proof.
  split_and!; [apply s3_contract|..]; intros.
  - apply (S3.Store_env_step (Some s) fname r size w).
  - apply (S3.Delete_env_step (Some s) fname w).
  - apply (S3.GetPublicURL_env_step (Some s) fname w).
Qed.

(** C4: A logging middleware around any service that implements the
    contract implements it too, so decoration can be stacked. *)
Theorem wrap_satisfies sink svc : satisfies svc -> satisfies (wrap (LogfmtLogger sink) svc).
Proof. apply wrap_contract. Qed.

(** ** The factory's handle is usable exactly when it reports no error *)

(** C1: The factory returns a handle that implements the storage contract exactly when it returns no error. *)
Theorem factory_handle_usable_iff_no_error typ creds logger w w' svc err :
  Factory.NewService typ creds logger w = (w', Returned (svc, err)) ->
  (err = None <-> satisfies svc).
Proof.
  unfold Factory.NewService. destruct (decide (typ = "s3")) as [->|Hne]; run_t.
  - destruct (S3.NewService_exclusive creds w) as [w1 [[s Hs] | [e Hs]]];
      rewrite Hs; intros [= <- <- <-]; split; try done.
    + intros _. apply with_logger_satisfies, s3_contract.
    + intros Hsat. exfalso. refine (Store_panics_not_satisfies _ "" [] 0 w1 nil_deref_msg _ Hsat).
      by destruct logger.
  - intros [= <- <- <-]. split; [done|].
    intros Hsat. exfalso. by refine (Store_panics_not_satisfies SvcNil "" [] 0 w nil_deref_msg _ Hsat).
Qed.
End Contract.
