(* ===== verification/Sessions.v ===== *)
(** * Client sessions on a [schema.Service] handle

    A caller of the package holds the handle [NewService] returns
    (src/service.go) and calls the three methods of [schema.Service]
    (src/schema/schema.go, lines 9-14) on it, one after the other.
    [run_op] is one such call through the interface, [run_ops] a
    sequence of calls on the same handle; a panic ends the sequence, as
    it ends the calling goroutine.

    [wf_service] is the well-formedness of a handle: a non-nil interface
    holding a non-nil [*s3.Service], possibly under middlewares, each a
    non-nil [*loggingMiddleware] with a non-nil logger.  [service_sinks]
    lists the sinks of the loggers of a handle.

    [returns_appending ks m] says that [m] returns on every world, reads
    and writes the environment only, and appends to the log lines whose
    sinks are in [ks], independently of the lines already there.  It is
    closed under the monad's operations and [defer], which gives it for
    every method call on a well-formed handle by [Service_wf_ind].

    The theorems: the factory returns a well-formed handle exactly when
    it returns no error; every call on a well-formed handle returns; a
    session on one completes with one result per call; decorating the
    handle leaves the results and the storage state of a whole session
    unchanged, and adds exactly one line per call to the new logger's
    sink, the lines of the other sinks unchanged; and the handle the
    factory returns with the error of a failed construction panics on
    the first call of any session. *)

From S2P Require Import Prelude GoErrors GoLib Schema Minio S3 Logging Factory.

Local Open Scope stdpp_scope.
Local Open Scope Z_scope.
Local Open Scope go_scope.

(** One call of a [schema.Service] method, with its arguments. *)
Inductive Op :=
| OpStore (fname : string) (r : Reader) (size : Z)
| OpDelete (fname : string)
| OpGetPublicURL (fname : string).

(** What the call returned. *)
Inductive Res :=
| RStore (fi : FileInfo) (err : option error)
| RDelete (err : option error)
| RGetPublicURL (url : option URL) (err : option error).

(** A usable handle: no nil interface, pointer or logger anywhere. *)
Fixpoint wf_service (svc : Service) : bool :=
  match svc with
  | SvcS3 (Some _) => true
  | SvcLogging (Some (LoggingMiddleware (LogfmtLogger _) next)) => wf_service next
  | _ => false
  end.

(** The sinks of the loggers of a handle, outermost first. *)
Fixpoint service_sinks (svc : Service) : list nat :=
  match svc with
  | SvcLogging (Some (LoggingMiddleware (LogfmtLogger k) next)) => k :: service_sinks next
  | SvcLogging (Some (LoggingMiddleware LoggerNil next)) => service_sinks next
  | _ => []
  end.

Section Session.
Context `{MinioAPI}.

Definition run_op (svc : Service) (op : Op) : M Res :=
  match op with
  | OpStore fname r size =>
      res <- Service_Store svc fname r size ;;
      let '(fi, err) := res in go_ret (RStore fi err)
  | OpDelete fname =>
      err <- Service_Delete svc fname ;; go_ret (RDelete err)
  | OpGetPublicURL fname =>
      res <- Service_GetPublicURL svc fname ;;
      let '(url, err) := res in go_ret (RGetPublicURL url err)
  end.

Fixpoint run_ops (svc : Service) (ops : list Op) : M (list Res) :=
  match ops with
  | [] => go_ret []
  | op :: ops' =>
      r <- run_op svc op ;;
      rs <- run_ops svc ops' ;;
      go_ret (r :: rs)
  end.
End Session.

(** ** Calls that return and only append log lines *)

Definition returns_appending {A} (ks : list nat) (m : M A) : Prop :=
  forall e, exists e' new a, Forall (fun x => fst x ∈ ks) new /\
    forall l, m (mkWorld e l) = (mkWorld e' (l ++ new), Returned a).

Section ReturnsAppending.
Context (ks : list nat).

Lemma ra_ret {A} (a : A) : returns_appending ks (go_ret a).
Proof. intros e. exists e, [], a. split; [done|]. intros l. by rewrite app_nil_r. Qed.

Lemma ra_bind {A B} (m : M A) (k : A -> M B) :
  returns_appending ks m -> (forall a, returns_appending ks (k a)) ->
  returns_appending ks (go_bind m k).
Proof.
  intros Hm Hk e. destruct (Hm e) as (e1 & n1 & a & F1 & E1).
  destruct (Hk a e1) as (e2 & n2 & b & F2 & E2).
  exists e2, (n1 ++ n2), b. split; [by apply Forall_app|].
  intros l. unfold go_bind. rewrite E1, E2. by rewrite app_assoc.
Qed.

Lemma ra_defer {A} (d : Outcome A -> M unit) (body : M A) :
  returns_appending ks body -> (forall o, returns_appending ks (d o)) ->
  returns_appending ks (go_defer d body).
Proof.
  intros Hb Hd e. destruct (Hb e) as (e1 & n1 & a & F1 & E1).
  destruct (Hd (Returned a) e1) as (e2 & n2 & u & F2 & E2).
  exists e2, (n1 ++ n2), a. split; [by apply Forall_app|].
  intros l. unfold go_defer. rewrite E1, E2. by rewrite app_assoc.
Qed.

Lemma ra_call {A} (f : Env -> Env * A) : returns_appending ks (call f).
Proof.
  intros e. destruct (f e) as [e' a] eqn:Ef. exists e', [], a. split; [done|].
  intros l. unfold call. simpl. by rewrite Ef, app_nil_r.
Qed.

Lemma ra_gets {A} (f : World -> A) :
  (forall e l l', f (mkWorld e l) = f (mkWorld e l')) -> returns_appending ks (go_gets f).
Proof.
  intros Hf e. exists e, [], (f (mkWorld e [])). split; [done|].
  intros l. unfold go_gets. by rewrite app_nil_r, (Hf e l []).
Qed.

Lemma ra_Log k kvs : k ∈ ks -> returns_appending ks (Log (LogfmtLogger k) kvs).
Proof. intros Hk e. exists e, [(k, kvs)], tt. split; [by constructor|done]. Qed.
End ReturnsAppending.

Lemma ra_weaken {A} ks ks' (m : M A) :
  ks ⊆ ks' -> returns_appending ks m -> returns_appending ks' m.
Proof.
  intros Hsub Hm e. destruct (Hm e) as (e' & n & a & F & E).
  exists e', n, a. split; [|done]. eapply Forall_impl; [exact F|]. set_solver.
Qed.

Ltac ra_t :=
  repeat match goal with
  | |- returns_appending _ (go_bind (deref (Some ?a)) ?k) =>
      change (go_bind (deref (Some a)) k) with (go_bind (go_ret a) k);
      rewrite go_bind_ret_l; cbv beta
  | |- returns_appending _ (go_bind _ _) => apply ra_bind; [|intros ?]
  | |- returns_appending _ (go_defer _ _) => apply ra_defer; [|intros ?]
  | |- returns_appending _ (go_ret _) => apply ra_ret
  | |- returns_appending _ (call _) => apply ra_call
  | |- returns_appending _ (go_gets _) => apply ra_gets; intros; reflexivity
  | |- returns_appending _ time_Now => apply ra_gets; intros; reflexivity
  | |- returns_appending _ (time_Since _) => apply ra_gets; intros; reflexivity
  | |- returns_appending _ (deref (Some _)) => apply ra_ret
  | |- returns_appending _ (Log (LogfmtLogger _) _) => apply ra_Log; set_solver
  | |- returns_appending _ (match ?x with _ => _ end) => destruct x
  | |- returns_appending _ (let _ := _ in _) => cbv zeta
  end.

(** Induction over well-formed handles: an adapter, or a middleware
    with a logger over a well-formed handle. *)
Lemma Service_wf_ind (P : Service -> Prop) :
  (forall s, P (SvcS3 (Some s))) ->
  (forall k next, wf_service next = true -> P next -> P (wrap (LogfmtLogger k) next)) ->
  forall svc, wf_service svc = true -> P svc.
Proof.
  intros HS HL. fix IH 1. intros [|[s|]|[[l next]|]|impl] Hwf; simpl in Hwf; try discriminate.
  - apply HS.
  - destruct l as [|k]; [discriminate|]. apply HL; [done|]. by apply IH.
Qed.

(** ** Usable handles *)

(** A backend outside the repository that behaves: each of its methods
    returns, reads and writes the environment only, and appends log lines
    on the sinks [ks]. *)
Definition impl_appending (ks : list nat) (impl : ServiceImpl) : Prop :=
  (forall fname r size, returns_appending ks (impl_Store impl fname r size)) /\
  (forall fname, returns_appending ks (impl_Delete impl fname)) /\
  (forall fname, returns_appending ks (impl_GetPublicURL impl fname)).

(** A usable handle whose loggers and backend write on sinks among [ks]:
    a non-nil adapter, a backend that behaves, or a middleware with a
    logger over a usable handle. *)
Inductive usable (ks : list nat) : Service -> Prop :=
| usable_s3 s : usable ks (SvcS3 (Some s))
| usable_external impl : impl_appending ks impl -> usable ks (SvcExternal impl)
| usable_wrap k next : k ∈ ks -> usable ks next -> usable ks (wrap (LogfmtLogger k) next).

#[export] Hint Constructors usable : go.

Lemma usable_weaken ks ks' svc : ks ⊆ ks' -> usable ks svc -> usable ks' svc.
Proof.
  intros Hsub. induction 1 as [s|impl (HS & HD & HU)|k next Hk _ IH]; constructor; auto.
  split_and!; intros; eapply ra_weaken; eauto.
Qed.

(** A well-formed handle is usable with the sinks of its loggers. *)
Lemma wf_usable svc : wf_service svc = true -> usable (service_sinks svc) svc.
Proof.
  revert svc. refine (Service_wf_ind _ _ _); [constructor|].
  intros k next _ IH. constructor; [simpl; set_solver|].
  eapply usable_weaken; [|exact IH]. simpl. set_solver.
Qed.

(** ** Method calls on well-formed handles *)

Section WellFormed.
Context `{MinioAPI}.

Lemma ra_middleware_Store ks k next_call fname :
  k ∈ ks -> returns_appending ks next_call ->
  returns_appending ks (loggingMiddleware_Store (Some (LogfmtLogger k)) next_call fname).
Proof. intros Hk Hn. unfold loggingMiddleware_Store. ra_t. exact Hn. Qed.

Lemma ra_middleware_Delete ks k next_call fname :
  k ∈ ks -> returns_appending ks next_call ->
  returns_appending ks (loggingMiddleware_Delete (Some (LogfmtLogger k)) next_call fname).
Proof. intros Hk Hn. unfold loggingMiddleware_Delete. ra_t. exact Hn. Qed.

Lemma ra_middleware_GetPublicURL ks k next_call fname :
  k ∈ ks -> returns_appending ks next_call ->
  returns_appending ks (loggingMiddleware_GetPublicURL (Some (LogfmtLogger k)) next_call fname).
Proof. intros Hk Hn. unfold loggingMiddleware_GetPublicURL. ra_t. exact Hn. Qed.

Local Ltac usable_method_t mw :=
  induction 1 as [s|impl (HS & HD & HU)|k next Hk _ IH];
  cbn [Service_Store Service_Delete Service_GetPublicURL wrap];
  [ cbv [S3.Store S3.Delete S3.GetPublicURL]; ra_t | auto | by apply mw ].

Lemma Service_Store_usable ks svc fname r size :
  usable ks svc -> returns_appending ks (Service_Store svc fname r size).
Proof. usable_method_t ra_middleware_Store. Qed.

Lemma Service_Delete_usable ks svc fname :
  usable ks svc -> returns_appending ks (Service_Delete svc fname).
Proof. usable_method_t ra_middleware_Delete. Qed.

Lemma Service_GetPublicURL_usable ks svc fname :
  usable ks svc -> returns_appending ks (Service_GetPublicURL svc fname).
Proof. usable_method_t ra_middleware_GetPublicURL. Qed.

Lemma run_op_usable ks svc op : usable ks svc -> returns_appending ks (run_op svc op).
Proof.
  intros Hu. destruct op; simpl; ra_t;
    auto using Service_Store_usable, Service_Delete_usable, Service_GetPublicURL_usable.
Qed.

Lemma run_ops_usable ks svc ops : usable ks svc -> returns_appending ks (run_ops svc ops).
Proof. intros Hu. induction ops; simpl; ra_t; auto using run_op_usable. Qed.
End WellFormed.

(** ** Decorating a well-formed handle, one call at a time *)

Section Decorated.
Context `{MinioAPI}.

(** A call through a middleware on sink [k] is the inner call, followed by
    one line on [k]; both do not depend on the lines already logged. *)
Lemma run_op_wrap ks k svc op e :
  usable ks svc ->
  exists e1 n1 r kvs, Forall (fun x => fst x ∈ ks) n1 /\
    forall l, run_op svc op (mkWorld e l) = (mkWorld e1 (l ++ n1), Returned r) /\
      run_op (wrap (LogfmtLogger k) svc) op (mkWorld e l) =
        (mkWorld e1 (l ++ n1 ++ [(k, kvs)]), Returned r).
Proof.
  intros Hu. destruct op as [fname r size|fname|fname].
  - destruct (Service_Store_usable ks svc fname r size Hu e) as (e1 & n1 & [fi err] & F & E).
    eexists e1, n1, _, _. split; [exact F|]. intros l.
    cbn [run_op Service_Store wrap].
    unfold go_bind. rewrite loggingMiddleware_Store_run, !E. unfold go_ret, append_log. simpl. by rewrite <- app_assoc.
  - destruct (Service_Delete_usable ks svc fname Hu e) as (e1 & n1 & err & F & E).
    eexists e1, n1, _, _. split; [exact F|]. intros l.
    cbn [run_op Service_Delete wrap].
    unfold go_bind. rewrite loggingMiddleware_Delete_run, !E. unfold go_ret, append_log. simpl. by rewrite <- app_assoc.
  - destruct (Service_GetPublicURL_usable ks svc fname Hu e) as (e1 & n1 & [url err] & F & E).
    eexists e1, n1, _, _. split; [exact F|]. intros l.
    cbn [run_op Service_GetPublicURL wrap].
    unfold go_bind. rewrite loggingMiddleware_GetPublicURL_run, !E. unfold go_ret, append_log. simpl. by rewrite <- app_assoc.
Qed.
End Decorated.

(** ** Sessions *)

(** The lines of a log on sink [k], and those on the other sinks. *)
Definition lines_of (k : nat) (l : list LogEntry) := filter (fun x => fst x = k) l.
Definition other_lines (k : nat) (l : list LogEntry) := filter (fun x => fst x ≠ k) l.

Lemma lines_of_other_sinks k (ks : list nat) n :
  Forall (fun x => fst x ∈ ks) n -> k ∉ ks -> lines_of k n = [] /\ other_lines k n = n.
Proof.
  unfold lines_of, other_lines. intros HF Hk. induction HF as [|x n Hx _ [IH1 IH2]]; [done|].
  rewrite filter_cons_False, filter_cons_True by set_solver.
  split; [exact IH1|f_equal; exact IH2].
Qed.

Lemma lines_of_app k l1 l2 : lines_of k (l1 ++ l2) = lines_of k l1 ++ lines_of k l2.
Proof. apply filter_app. Qed.

Lemma other_lines_app k l1 l2 : other_lines k (l1 ++ l2) = other_lines k l1 ++ other_lines k l2.
Proof. apply filter_app. Qed.

Lemma lines_of_here k kvs : lines_of k [(k, kvs)] = [(k, kvs)].
Proof. unfold lines_of. by rewrite filter_cons_True. Qed.

Lemma other_lines_here k kvs : other_lines k [(k, kvs)] = [].
Proof. unfold other_lines. rewrite filter_cons_False; naive_solver. Qed.

Section SessionTheorems.
Context `{MinioAPI}.

(** C23: The factory returns a well-formed handle (no nil interface,
    pointer or logger in it) exactly when it returns no error. *)
Theorem factory_wf_iff_no_error typ creds logger w w' svc err :
  Factory.NewService typ creds logger w = (w', Returned (svc, err)) ->
  (wf_service svc = true <-> err = None).
Proof.
  unfold Factory.NewService. destruct (decide (typ = "s3")) as [->|Hne]; run_t.
  - destruct (S3.NewService_exclusive creds w) as [w1 [[s Hs] | [e Hs]]];
      rewrite Hs; intros [= <- <- <-]; by destruct logger.
  - by intros [= <- <- <-].
Qed.

(** C24: Every call on a usable handle (a well-formed one, or one over a
    backend that behaves) returns: it never panics, and its only effect on
    the log is to append lines on the sinks of the handle's loggers and
    backend. *)
Theorem wf_handle_calls_return ks svc op w :
  usable ks svc ->
  exists w' r new, run_op svc op w = (w', Returned r) /\
    w_logs w' = w_logs w ++ new /\ Forall (fun x => fst x ∈ ks) new.
Proof.
  intros Hu. destruct w as [e l].
  destruct (run_op_usable ks svc op Hu e) as (e' & new & r & F & E).
  exists (mkWorld e' (l ++ new)), r, new. by rewrite E.
Qed.

(** C25: Decoration is transparent for a whole session: the same calls on
    a usable handle (any backend that behaves, decorated or not) and on
    that handle behind a middleware logging to a fresh sink [k] give the
    same results and the same storage state; the logs differ only by the
    lines on [k], exactly one per call. *)
Theorem session_decoration_transparent ks k svc ops e :
  usable ks svc -> k ∉ ks ->
  exists e' new new' rs,
    other_lines k new' = new /\ length (lines_of k new') = length ops /\
    forall l,
      run_ops svc ops (mkWorld e l) = (mkWorld e' (l ++ new), Returned rs) /\
      run_ops (wrap (LogfmtLogger k) svc) ops (mkWorld e l) =
        (mkWorld e' (l ++ new'), Returned rs).
Proof.
  intros Hu Hk. revert e. induction ops as [|op ops IH]; intros e.
  - exists e, [], [], []. split_and!; [done..|]. intros l. by rewrite app_nil_r.
  - destruct (run_op_wrap ks k svc op e Hu) as (e1 & n1 & r & kvs & F & E).
    destruct (IH e1) as (e' & new & new' & rs & Ho & Hl & E').
    destruct (lines_of_other_sinks k _ n1 F Hk) as [Hn1 Hn2].
    exists e', (n1 ++ new), (n1 ++ [(k, kvs)] ++ new'), (r :: rs). split_and!.
    + by rewrite !other_lines_app, Hn2, Ho, other_lines_here.
    + rewrite !lines_of_app, Hn1, lines_of_here. simpl. by rewrite Hl.
    + intros l. destruct (E l) as [E1 E2]. simpl. unfold go_bind.
      rewrite E1, E2, (proj1 (E' _)), (proj2 (E' _)). unfold go_ret. by rewrite <- !app_assoc.
Qed.
End SessionTheorems.

(** ** The handle of a failed construction *)

(** The line a middleware logs for a call whose inner call panicked at
    once: the zero results, no error, no elapsed time. *)
Definition zero_keyvals (op : Op) : list LogVal :=
  match op with
  | OpStore fname _ _ => store_keyvals fname FileInfo_zero None 0
  | OpDelete fname => delete_keyvals fname None 0
  | OpGetPublicURL fname => url_keyvals fname None None 0
  end.

Section FailedHandle.
Context `{MinioAPI}.

(** C30: When the adapter cannot be built, the factory returns a handle
    with the error, and a session on that handle panics on its first
    call, whatever the call, with Go's nil-pointer dereference; when a
    logger was given, the middleware has logged one line for it that
    reports no error and zero results. *)
Theorem failed_handle_session_panics creds logger w w' err :
  S3.NewService creds w = (w', Returned (None, Some err)) ->
  exists svc,
    Factory.NewService "s3" creds logger w = (w', Returned (svc, Some err)) /\
    forall op ops w1,
      run_ops svc (op :: ops) w1 =
        (mkWorld (w_env w1)
           (w_logs w1 ++ match logger with
                         | LoggerNil => []
                         | LogfmtLogger k => [(k, zero_keyvals op)]
                         end),
         Panicked nil_deref_msg).
Proof.
  intros HS. exists (Factory.with_logger logger (SvcS3 None)). split.
  - unfold Factory.NewService. simpl. run_t. rewrite HS. by destruct logger.
  - intros op ops [e l]. destruct logger, op; run_t;
      rewrite ?subMono_refl, ?app_nil_r; reflexivity.
Qed.
End FailedHandle.
