(* ===== verification/MemMinio.v ===== *)
(** * An in-memory storage client

    [mem_minio] implements [MinioAPI] over the remote store of the world,
    with the argument checks minio-go performs before any request and the
    messages the repository's tests expect from it: an empty endpoint, an
    empty bucket or object name, an upload above the 5 TiB limit of a
    single PUT, a missing bucket.  Every call advances the clock by one
    tick.  It satisfies [MinioLaws], so every theorem proved against the
    interface applies to it, and its computations run, which gives the
    witnesses and the test scenarios of Scenarios.v. *)

From S2P Require Import Prelude GoErrors GoLib Schema Minio.
From stdpp Require Import pretty.

Local Open Scope stdpp_scope.
Local Open Scope Z_scope.

Module Mem.

(** The errors of the client, each a distinct [errors.New]. *)
Definition ErrEndpoint : error :=
  ErrNew 10 "Endpoint:  does not follow ip address or domain name standards.".
Definition ErrBucketNameEmpty : error := ErrNew 11 "Bucket name cannot be empty".
Definition ErrObjectNameEmpty : error := ErrNew 12 "Object name cannot be empty".
Definition ErrNoSuchBucket : error := ErrNew 13 "The specified bucket does not exist".
Definition ErrUnexpectedEOF : error := ErrNew 14 "unexpected EOF".
Definition ErrExpires : error := ErrNew 15 "Expires cannot be lesser than 1 second or greater than 7 days".

(** The largest object a single PUT accepts: 5 TiB. *)
Definition maxSinglePutObjectSize : Z := 1024 * 1024 * 1024 * 1024 * 5.

Definition ErrEntityTooLarge (size : Z) : error :=
  ErrNew 16 ("Your proposed upload size ‘" +:+ pretty size +:+
             "’ exceeds the maximum allowed object size ‘" +:+
             pretty maxSinglePutObjectSize +:+ "’ for single PUT operation.").

Definition tick (e : Env) : Env := mkEnv (env_clock e + 1) (env_remote e) (env_mime e).

Definition set_remote (rm : Remote) (e : Env) : Env := mkEnv (env_clock e) rm (env_mime e).

Definition check_names (bucket key : string) : option error :=
  if decide (bucket = "") then Some ErrBucketNameEmpty
  else if decide (key = "") then Some ErrObjectNameEmpty
  else None.

Definition mem_New (endpoint id secret : string) (secure : bool) : Client * option error :=
  (mkClient endpoint id secret secure,
   if decide (endpoint = "") then Some ErrEndpoint else None).

Definition mem_BucketExists (c : Client) (bucket : string) (e : Env) : Env * (bool * option error) :=
  (tick e,
   if decide (bucket = "") then (false, Some ErrBucketNameEmpty)
   else (bool_decide (is_Some (env_remote e !! bucket)), None)).

Definition mem_PutObject (c : Client) (bucket key : string) (r : Reader) (size : Z)
    (opts : PutObjectOptions) (e : Env) : Env * (Z * option error) :=
  let e := tick e in
  match check_names bucket key with
  | Some err => (e, (0, Some err))
  | None =>
      if decide (maxSinglePutObjectSize < size) then (e, (0, Some (ErrEntityTooLarge size)))
      else match env_remote e !! bucket with
      | None => (e, (0, Some ErrNoSuchBucket))
      | Some objs =>
          let data := if decide (size < 0) then r else take (Z.to_nat size) r in
          if decide (0 <= size /\ Z.of_nat (length r) < size)
          then (e, (0, Some ErrUnexpectedEOF))
          else (set_remote (<[bucket := <[key := mkObject data (ContentType opts)]> objs]>
                              (env_remote e)) e,
                (Z.of_nat (length data), None))
      end
  end.

Definition mem_RemoveObject (c : Client) (bucket key : string) (e : Env) : Env * option error :=
  let e := tick e in
  match check_names bucket key with
  | Some err => (e, Some err)
  | None =>
      match env_remote e !! bucket with
      | None => (e, Some ErrNoSuchBucket)
      | Some objs => (set_remote (<[bucket := delete key objs]> (env_remote e)) e, None)
      end
  end.

Definition mem_PresignedGetObject (c : Client) (bucket key : string) (expiry : Z)
    (params : Values) (e : Env) : Env * (option URL * option error) :=
  let e := tick e in
  match check_names bucket key with
  | Some err => (e, (None, Some err))
  | None =>
      let secs := expiry `div` Second in
      if decide (secs < 1 \/ 7 * 24 * 3600 < secs) then (e, (None, Some ErrExpires))
      else (e, (Some (mkURL (if cl_secure c then "https" else "http") (cl_endpoint c)
                            ("/" +:+ bucket +:+ "/" +:+ key)
                            (<["X-Amz-Expires" := [pretty secs]]> params)), None))
  end.

#[export] Instance mem_minio : MinioAPI := {
  minio_New := mem_New;
  BucketExists := mem_BucketExists;
  PutObject := mem_PutObject;
  RemoveObject := mem_RemoveObject;
  PresignedGetObject := mem_PresignedGetObject
}.

#[export] Instance mem_minio_laws : MinioLaws.
Proof.
  split.
  - intros c b e. simpl. lia.
  - intros c b k r n o e. simpl. unfold mem_PutObject.
    repeat case_match; simpl; lia.
  - intros c b k e. simpl. unfold mem_RemoveObject.
    repeat case_match; simpl; lia.
  - intros c b k x v e. simpl. unfold mem_PresignedGetObject.
    repeat case_match; simpl; lia.
  - intros c b k x v e. simpl. unfold mem_PresignedGetObject.
    repeat case_match; simplify_eq/=; naive_solver.
Qed.

End Mem.
