(* ===== verification/MemSessions.v ===== *)
(** * Sessions over the in-memory storage client

    The state reachable by a session on a well-formed handle whose
    adapters all talk to [Mem.mem_minio], from a given world, is the
    reflexive-transitive closure [reachable] of [session_step], one
    returning call of [run_op] (Sessions.v) per step.

    The invariant: every object of the remote store carries as its
    content type the MIME type of its name's extension, which is what
    [s3.Service.Store] sends in its [PutObjectOptions]; the MIME table is
    never changed.  Each call preserves it ([run_op_typed], by induction
    on the handle with [Service_wf_ind]), so every reachable world keeps
    it (by rule induction on [reachable]). *)

From S2P Require Import Prelude GoErrors GoLib Schema Minio S3 Logging Sessions MemMinio.

Local Open Scope stdpp_scope.
Local Open Scope Z_scope.
Local Open Scope go_scope.

#[local] Existing Instance Mem.mem_minio.

(** ** The invariant *)

Definition objs_typed (mime : gmap string string) (objs : gmap string Object) : Prop :=
  map_Forall (fun key o => obj_content_type o = TypeByExtension mime (Ext key)) objs.

Definition remote_typed (e : Env) : Prop :=
  map_Forall (fun _ objs => objs_typed (env_mime e) objs) (env_remote e).

(** An environment step that keeps the MIME table and the invariant. *)
Definition typed_step (e e' : Env) : Prop :=
  env_mime e' = env_mime e /\ (remote_typed e -> remote_typed e').

#[export] Instance typed_step_preorder : PreOrder typed_step.
Proof.
  split; [by intros e; split|].
  intros e1 e2 e3 [M12 T12] [M23 T23]. split; [congruence|tauto].
Qed.

(** A relation on environments, read on worlds. *)
Definition on_env (R : relation Env) : relation World := fun w w' => R (w_env w) (w_env w').

#[export] Instance on_env_preorder R `{!PreOrder R} : PreOrder (on_env R).
Proof. split; [intros w; red; reflexivity|intros w1 w2 w3; unfold on_env; etransitivity; eauto]. Qed.

Lemma call_on_env {A} R (f : Env -> Env * A) :
  (forall e, R e (fst (f e))) -> go_frame (on_env R) (call f).
Proof. intros Hf w. rewrite call_run. apply Hf. Qed.

Lemma Log_on_env R `{!Reflexive R} l kvs : go_frame (on_env R) (Log l kvs).
Proof. destruct l; intros w; red; simpl; reflexivity. Qed.

#[local] Hint Extern 1 (go_frame (on_env _) (Log _ _)) => apply Log_on_env; typeclasses eauto : go.

(** ** The client's calls *)

Lemma tick_typed_step e : typed_step e (Mem.tick e).
Proof. by split. Qed.

Lemma set_remote_typed_step bucket objs e :
  (remote_typed e -> objs_typed (env_mime e) objs) ->
  typed_step e (Mem.set_remote (<[bucket := objs]> (env_remote e)) (Mem.tick e)).
Proof. intros Ho. split; [done|]. intros Ht. by apply map_Forall_insert_2; [apply Ho|]. Qed.

Lemma mem_PutObject_typed c bucket key r size e :
  typed_step e
    (fst (Mem.mem_PutObject c bucket key r size
            (mkPutObjectOptions (TypeByExtension (env_mime e) (Ext key))) e)).
Proof.
  unfold Mem.mem_PutObject. repeat case_match; simplify_eq/=; try apply tick_typed_step;
    (apply set_remote_typed_step; intros Ht;
     apply map_Forall_insert_2; [done|by apply (Ht bucket)]).
Qed.

Lemma mem_RemoveObject_typed c bucket key e :
  typed_step e (fst (Mem.mem_RemoveObject c bucket key e)).
Proof.
  unfold Mem.mem_RemoveObject. repeat case_match; simplify_eq/=; try apply tick_typed_step.
  apply set_remote_typed_step. intros Ht. apply map_Forall_delete. by apply (Ht bucket).
Qed.

Lemma mem_PresignedGetObject_typed c bucket key x v e :
  typed_step e (fst (Mem.mem_PresignedGetObject c bucket key x v e)).
Proof. unfold Mem.mem_PresignedGetObject. repeat case_match; apply tick_typed_step. Qed.

(** ** The adapter's methods, the middleware and the handle *)

Abbreviation typed_frame := (go_frame (on_env typed_step)).

(** [Store] sends the MIME type of the name's extension, read from the
    table of the world it runs in. *)
Lemma Store_typed p fname r size : typed_frame (S3.Store p fname r size).
Proof.
  intros w. destruct p as [s|]; [|red; simpl; reflexivity].
  unfold S3.Store. cbv [go_bind go_gets deref go_ret]. rewrite call_run.
  destruct (snd (PutObject _ _ _ _ _ _ _)) as [sz [err|]];
    cbv [time_Now go_gets go_ret]; simpl; apply mem_PutObject_typed.
Qed.

Lemma Delete_typed p fname : typed_frame (S3.Delete p fname).
Proof.
  unfold S3.Delete. go_frame_t. apply call_on_env. intros e. apply mem_RemoveObject_typed.
Qed.

Lemma GetPublicURL_typed p fname : typed_frame (S3.GetPublicURL p fname).
Proof.
  unfold S3.GetPublicURL. go_frame_t. apply call_on_env. intros e.
  apply mem_PresignedGetObject_typed.
Qed.

Section Handle.
Context (logger : option Logger) (fname : string).

Lemma loggingMiddleware_Store_typed next : typed_frame next ->
  typed_frame (loggingMiddleware_Store logger next fname).
Proof. intros Hn. unfold loggingMiddleware_Store. go_frame_t. Qed.

Lemma loggingMiddleware_Delete_typed next : typed_frame next ->
  typed_frame (loggingMiddleware_Delete logger next fname).
Proof. intros Hn. unfold loggingMiddleware_Delete. go_frame_t. Qed.

Lemma loggingMiddleware_GetPublicURL_typed next : typed_frame next ->
  typed_frame (loggingMiddleware_GetPublicURL logger next fname).
Proof. intros Hn. unfold loggingMiddleware_GetPublicURL. go_frame_t. Qed.
End Handle.

Lemma run_op_typed svc op : wf_service svc = true -> typed_frame (run_op svc op).
Proof.
  intros Hwf. destruct op as [fname r size|fname|fname]; simpl; go_frame_t;
    revert svc Hwf; refine (Service_wf_ind _ _ _); simpl; intros;
    auto using Store_typed, Delete_typed, GetPublicURL_typed, loggingMiddleware_Store_typed,
      loggingMiddleware_Delete_typed, loggingMiddleware_GetPublicURL_typed.
Qed.

(** ** Reachable worlds *)

(** The worlds a session on [svc] reaches from [w0], one returning call
    at a time. *)
Inductive reachable (svc : Service) (w0 : World) : World -> Prop :=
| reach_init : reachable svc w0 w0
| reach_call w op w' r :
    reachable svc w0 w -> run_op svc op w = (w', Returned r) -> reachable svc w0 w'.

Lemma run_ops_reachable svc ops w0 w w' rs :
  reachable svc w0 w -> run_ops svc ops w = (w', Returned rs) -> reachable svc w0 w'.
Proof.
  revert w rs. induction ops as [|op ops IH]; intros w rs Hr; simpl.
  - by intros [= <- _].
  - unfold go_bind. destruct (run_op svc op w) as [w1 [r|]] eqn:E1; [|done].
    destruct (run_ops svc ops w1) as [w2 [rs'|]] eqn:E2; [|done].
    intros [= <- _]. eapply IH; [|exact E2]. by econstructor.
Qed.

(** C26: Every world a session on a well-formed handle over the
    in-memory client reaches keeps the MIME table, and if every stored
    object had the MIME type of its name's extension as content type,
    every stored object still has. *)
Theorem reachable_objects_typed svc w0 w :
  wf_service svc = true -> remote_typed (w_env w0) -> reachable svc w0 w ->
  remote_typed (w_env w) /\ env_mime (w_env w) = env_mime (w_env w0).
Proof.
  intros Hwf Ht0. induction 1 as [|w op w' r _ [IH1 IH2] Hrun]; [done|].
  destruct (run_op_typed svc op Hwf w) as [Hm Ht]. rewrite Hrun in Hm, Ht. simpl in *.
  split; [tauto|congruence].
Qed.
