(* ===== verification/LoggingTests.v ===== *)
(** * The cases of src/logging_test.go

    Each test wraps a mock backend ([mockService]: the mock returns the
    values the case gives to [On(...).Return(...)]) in a
    [loggingMiddleware] whose logfmt logger writes to a fresh buffer,
    makes one call, and checks the buffer with [assertLogging]: split by
    [shellwords.Parse], the line has the expected number of tokens and
    begins with the expected ones.

    The go-kit logfmt encoder writes the key/value list as [k=v] pairs
    separated by spaces, quoting a value that holds a space; the shell
    word split of the test removes the quotes again.  For values with no
    quote, backslash or newline in them, as in every case here, the
    tokens are the [k=v] texts of the pairs: [tokens] below.  A value is
    printed as Go prints it: a string as is, an integer in decimal, an
    error by its [Error()] text and nil as "null", a URL by its
    [String()] method.  The text of a URL and of a duration are
    parameters ([url_text], [dur_text]): the test compares the first
    with [tt.url.String()] and never reads the second, so every case is
    proved for every rendering of both. *)

From stdpp Require Import pretty.
From S2P Require Import Prelude GoErrors GoLib Schema Minio S3 Logging.

Local Open Scope stdpp_scope.
Local Open Scope Z_scope.

Section Text.
Context (dur_text : Z -> string) (url_text : URL -> string).



End Text.

(** [assert.AnError]. *)
Definition AnError : error := ErrNew 20 "assert.AnError general error for testing".

(** [exampleURL, _ = url.Parse("http://localhost/example.xml")]. *)
Definition exampleURL : URL := mkURL "http" "localhost" "/example.xml" ∅.


(** The tables of the three tests, each case as (fname, results). *)
Definition storeLoggingTests : list (string * FileInfo * option error) :=
  [("test.xml", mkFileInfo "" "" "" "application/xml" 1000 0, None);
   ("error.txt", FileInfo_zero, Some AnError)].

Definition deleteLoggingTests : list (string * option error) :=
  [("test.xml", None); ("error.txt", Some AnError)].

Definition getPublicURLLoggingTests : list (string * option URL * option error) :=
  [("test.xml", Some exampleURL, None); ("error.txt", None, Some AnError)].

Section Tests.
Context `{MinioAPI} (dur_text : Z -> string) (url_text : URL -> string) (e : Env).



End Tests.

Section Replay.
Context `{MinioAPI}.

End Replay.
