(* ===== verification/Scenarios.v ===== *)
(** * Scenarios: the repository's tests, round trips and witnesses

    The test files of the repository (src/s3/service_test.go,
    src/service_test.go, src/logging_test.go) run against a live server;
    here their cases run against the in-memory client [Mem.mem_minio]
    with the same credentials and file names, and the error strings the
    tests compare are computed from the model.  Then: round trips of the
    adapter over the in-memory store (a stored object can be read back,
    a deleted one is gone), and witnesses that apply each theorem with
    hypotheses at a concrete input. *)

From S2P Require Import Prelude GoErrors GoLib Schema Minio S3 Logging Factory Contract Sessions MemMinio MemSessions.

Local Open Scope stdpp_scope.
Local Open Scope Z_scope.

#[local] Existing Instance Mem.mem_minio.
#[local] Existing Instance Mem.mem_minio_laws.

(** ** The data of the tests *)

Definition test_creds : Credentials :=
  mkCredentials "play.minio.io:9000" "Q3AM3UQ867SPQQA43P2F"
    "zuf+tfteSlswRu7BJ86wekitnifILbZam1KYY3TG" true "mymusic" "us-east-1".

Definition test_client : Client :=
  mkClient "play.minio.io:9000" "Q3AM3UQ867SPQQA43P2F"
    "zuf+tfteSlswRu7BJ86wekitnifILbZam1KYY3TG" true.

(** [getServiceForTesting()]. *)
Definition test_s3 : s3Service := mks3Service test_creds test_client.

(** The server holds the bucket "mymusic"; the MIME table is the one of
    the test machine, where ".xml" is "application/xml". *)
Definition test_world : World :=
  mkWorld (mkEnv 1000 {[ "mymusic" := ∅ ]} {[ ".xml" := "application/xml" ]}) [].

(** testdata/test.xml, 20 bytes. *)
Definition test_xml : Reader := replicate 20 Byte.x61.

(** [(1024 * 1024 * 1024 * 1024 * 5) + 1]. *)
Definition maxSize : Z := (1024 * 1024 * 1024 * 1024 * 5) + 1.

Definition err_of {A} (o : Outcome (A * option error)) : string :=
  match o with Returned (_, e) => error_text e | Panicked m => m end.

(** ** The cases of src/s3/service_test.go *)

(** Test_Service_Store "error": an upload above the single-PUT limit
    fails with the wrapped message and the zero FileInfo. *)
Example store_too_large_matches_test :
  let '(_, o) := S3.Store (Some test_s3) "test/empty.xml" [] maxSize test_world in
  err_of o = "failed to store file 'test/empty.xml': Your proposed upload size ‘5497558138881’ exceeds the maximum allowed object size ‘5497558138880’ for single PUT operation." /\
  fmap fst (match o with Returned v => Some v | Panicked _ => None end) = Some FileInfo_zero.
Proof. vm_compute. split; reflexivity. Qed.

(** Test_Service_Delete "error" and Test_Service_GetPublicURL "error". *)
Example empty_name_errors_match_test :
  error_text (named None (snd (S3.Delete (Some test_s3) "" test_world))) =
    "cannot delete '': Object name cannot be empty" /\
  S3.GetPublicURL (Some test_s3) "" test_world =
    (mkWorld (Mem.tick (w_env test_world)) [],
     Returned (None, Some (ErrWithMessage Mem.ErrObjectNameEmpty
                             "unable to get S3 pre-signed URL for file ''"))) /\
  Error (ErrWithMessage Mem.ErrObjectNameEmpty "unable to get S3 pre-signed URL for file ''") =
    "unable to get S3 pre-signed URL for file '': Object name cannot be empty".
Proof. vm_compute. repeat split. Qed.

(** Test_NewService: the three failing constructions and their messages. *)
Example constructor_errors_match_test :
  let creds b := mkCredentials "play.minio.io:9000" "Q3AM3UQ867SPQQA43P2F"
                   "zuf+tfteSlswRu7BJ86wekitnifILbZam1KYY3TG" true b "" in
  err_of (snd (S3.NewService (mkCredentials "" "" "" false "" "") test_world)) =
    "cannot create s3 client: Endpoint:  does not follow ip address or domain name standards." /\
  err_of (snd (S3.NewService (creds "") test_world)) =
    "bucket error: Bucket name cannot be empty" /\
  err_of (snd (S3.NewService (creds "bleepbloop") test_world)) =
    "bucket bleepbloop: bucket doesn't exist".
Proof. vm_compute. repeat split. Qed.

(** ** The case of src/service_test.go *)

(** Test_NewService unsupported service: the factory returns the nil interface and an error whose text is the one the test compares and whose cause is the sentinel. *)
Example factory_disk_matches_test :
  Factory.NewService "disk" (mkCredentials "" "" "" false "" "") LoggerNil test_world =
    (test_world, Returned (SvcNil, Some (ErrWithMessage Factory.ErrUnsupportedType
                                          "service 'disk' unsupported"))) /\
  Error (ErrWithMessage Factory.ErrUnsupportedType "service 'disk' unsupported") =
    "service 'disk' unsupported: the given service type is unsupported" /\
  Cause (ErrWithMessage Factory.ErrUnsupportedType "service 'disk' unsupported") =
    Factory.ErrUnsupportedType.
Proof. vm_compute. repeat split. Qed.

(** ** Round trips over the in-memory store *)

Section RoundTrip.
Context (s : s3Service) (objs : gmap string Object) (w : World).
Let bucket := CredBucket (s3_creds s).
Hypothesis Hbucket : env_remote (w_env w) !! bucket = Some objs.
Hypothesis Hname : bucket <> "".

(** The object stored under [fname] in the remote store. *)
Definition stored (w' : World) (fname : string) : option Object :=
  env_remote (w_env w') !! bucket ≫= (.!! fname).

(** C14: A [Store] of [size] bytes, within the reader's length and the
    single-PUT limit, succeeds; it reports [size] bytes and the object
    can be read back with the first [size] bytes and the MIME type. *)
Theorem store_then_read_back fname r size :
  fname <> "" -> 0 <= size <= Z.of_nat (length r) -> size <= Mem.maxSinglePutObjectSize ->
  exists w' fi,
    S3.Store (Some s) fname r size w = (w', Returned (fi, None)) /\
    Size fi = size /\
    stored w' fname = Some (mkObject (take (Z.to_nat size) r) (S3.store_mtype w fname)).
Proof.
  intros Hf Hsz Hmax. unfold S3.Store, stored, S3.store_mtype. run_t.
  unfold Mem.mem_PutObject, Mem.check_names. fold bucket.
  rewrite !decide_False by (done || lia). simpl. rewrite Hbucket. simpl.
  rewrite decide_False by lia.
  do 2 eexists; split; [reflexivity|]. simpl. split.
  - rewrite length_take. lia.
  - rewrite lookup_insert_eq. simpl. by rewrite lookup_insert_eq.
Qed.

(** C15: [Delete] of a named object succeeds, the object is gone and every
    other object of the bucket is untouched. *)
Theorem delete_removes fname :
  fname <> "" ->
  exists w',
    S3.Delete (Some s) fname w = (w', Returned None) /\
    stored w' fname = None /\
    (forall k, k <> fname -> stored w' k = stored w k).
Proof.
  intros Hf. unfold S3.Delete, stored. run_t.
  unfold Mem.mem_RemoveObject, Mem.check_names. fold bucket.
  rewrite !decide_False by done. simpl. rewrite Hbucket. simpl.
  eexists; split; [reflexivity|]. simpl. rewrite lookup_insert_eq. simpl.
  split; [apply lookup_delete_eq|]. intros k Hk. by apply lookup_delete_ne.
Qed.
End RoundTrip.

(** ** Witnesses *)

Definition put_env : Env :=
  fst (Mem.mem_PutObject test_client "mymusic" "test/test.xml" test_xml 20
         (mkPutObjectOptions "application/xml") (w_env test_world)).

(** The world after the test file was stored. *)
Definition put_env_world : World := mkWorld put_env [].

Definition big_env : Env :=
  fst (Mem.mem_PutObject test_client "mymusic" "test/empty.xml" [] maxSize
         (mkPutObjectOptions "application/xml") (w_env test_world)).

Lemma Store_success_witness :
  PutObject (s3_client test_s3) (CredBucket (s3_creds test_s3)) "test/test.xml" test_xml 20
    (mkPutObjectOptions (S3.store_mtype test_world "test/test.xml")) (w_env test_world) =
    (put_env, (20, None)) /\
  S3.Store (Some test_s3) "test/test.xml" test_xml 20 test_world =
    (mkWorld put_env [],
     Returned (mkFileInfo "test/test.xml" "mymusic" "us-east-1" "application/xml" 20 1001, None)).
Proof.
  split; [vm_compute; reflexivity|].
  apply (S3.Store_success test_s3 "test/test.xml" test_xml 20 test_world put_env 20).
  vm_compute. reflexivity.
Defined.

Lemma Store_failure_witness :
  PutObject (s3_client test_s3) (CredBucket (s3_creds test_s3)) "test/empty.xml" [] maxSize
    (mkPutObjectOptions (S3.store_mtype test_world "test/empty.xml")) (w_env test_world) =
    (big_env, (0, Some (Mem.ErrEntityTooLarge maxSize))) /\
  S3.Store (Some test_s3) "test/empty.xml" [] maxSize test_world =
    (mkWorld big_env [],
     Returned (FileInfo_zero, Some (ErrWithMessage (Mem.ErrEntityTooLarge maxSize)
                                     "failed to store file 'test/empty.xml'"))).
Proof.
  split; [vm_compute; reflexivity|].
  apply (S3.Store_failure test_s3 "test/empty.xml" [] maxSize test_world big_env 0).
  vm_compute. reflexivity.
Defined.

Definition disposition_params : Values :=
  {[ "response-content-disposition" :=
       ["attachment; filename=" +:+ S3.dquote +:+ Base "test/test.xml" +:+ S3.dquote] ]}.

Definition presign_result :=
  Mem.mem_PresignedGetObject test_client "mymusic" "test/test.xml" 86400000000000
    disposition_params (w_env test_world).

Lemma GetPublicURL_request_witness :
  PresignedGetObject (s3_client test_s3) (CredBucket (s3_creds test_s3)) "test/test.xml"
    86400000000000 disposition_params (w_env test_world) =
    (presign_result.1, (presign_result.2.1, None)) /\
  S3.GetPublicURL (Some test_s3) "test/test.xml" test_world =
    (mkWorld presign_result.1 [], Returned (presign_result.2.1, None)).
Proof.
  split; [vm_compute; reflexivity|].
  apply (S3.GetPublicURL_request test_s3 "test/test.xml" test_world presign_result.1
           presign_result.2.1 None).
  vm_compute. reflexivity.
Defined.

(** Test_Service_GetPublicURL "success": the URL starts with
    https://play.minio.io:9000/mymusic and carries the expiry and the
    content disposition. *)
Example get_url_matches_test :
  S3.GetPublicURL (Some test_s3) "test/test.xml" test_world =
    (mkWorld (Mem.tick (w_env test_world)) [],
     Returned (Some (mkURL "https" "play.minio.io:9000" "/mymusic/test/test.xml"
                       {[ "X-Amz-Expires" := ["86400"];
                          "response-content-disposition" :=
                            ["attachment; filename=" +:+ S3.dquote +:+ "test.xml" +:+ S3.dquote] ]}),
               None)).
Proof. vm_compute. reflexivity. Qed.

Definition creds_with_bucket (b : string) : Credentials :=
  mkCredentials "play.minio.io:9000" "Q3AM3UQ867SPQQA43P2F"
    "zuf+tfteSlswRu7BJ86wekitnifILbZam1KYY3TG" true b "".

Lemma NewService_client_error_witness :
  minio_New "" "" "" false = (mkClient "" "" "" false, Some Mem.ErrEndpoint) /\
  S3.NewService (mkCredentials "" "" "" false "" "") test_world =
    (test_world, Returned (None, Some (ErrWithMessage Mem.ErrEndpoint "cannot create s3 client"))).
Proof.
  split; [reflexivity|].
  apply (S3.NewService_client_error (mkCredentials "" "" "" false "" "") test_world
           (mkClient "" "" "" false)). reflexivity.
Defined.

Lemma NewService_bucket_error_witness :
  BucketExists test_client "" (w_env test_world) =
    (Mem.tick (w_env test_world), (false, Some Mem.ErrBucketNameEmpty)) /\
  S3.NewService (creds_with_bucket "") test_world =
    (mkWorld (Mem.tick (w_env test_world)) [],
     Returned (None, Some (ErrWithMessage Mem.ErrBucketNameEmpty "bucket error"))).
Proof.
  split; [reflexivity|].
  apply (S3.NewService_bucket_error (creds_with_bucket "") test_world test_client
           (Mem.tick (w_env test_world)) false); reflexivity.
Defined.

Lemma NewService_bucket_missing_witness :
  BucketExists test_client "bleepbloop" (w_env test_world) =
    (Mem.tick (w_env test_world), (false, None)) /\
  S3.NewService (creds_with_bucket "bleepbloop") test_world =
    (mkWorld (Mem.tick (w_env test_world)) [],
     Returned (None, Some (ErrWithMessage S3.ErrBucketNotExists "bucket bleepbloop"))).
Proof.
  split; [vm_compute; reflexivity|].
  apply (S3.NewService_bucket_missing (creds_with_bucket "bleepbloop") test_world test_client
           (Mem.tick (w_env test_world))); vm_compute; reflexivity.
Defined.

Lemma NewService_success_witness :
  BucketExists test_client "mymusic" (w_env test_world) =
    (Mem.tick (w_env test_world), (true, None)) /\
  S3.NewService test_creds test_world =
    (mkWorld (Mem.tick (w_env test_world)) [], Returned (Some test_s3, None)).
Proof.
  split; [vm_compute; reflexivity|].
  apply (S3.NewService_success test_creds test_world test_client
           (Mem.tick (w_env test_world))); vm_compute; reflexivity.
Defined.

Lemma Store_CreatedAt_window_witness :
  S3.Store (Some test_s3) "test/test.xml" test_xml 20 test_world =
    (mkWorld put_env [],
     Returned (mkFileInfo "test/test.xml" "mymusic" "us-east-1" "application/xml" 20 1001, None)) /\
  1000 <= 1001 <= 1001.
Proof.
  split; [vm_compute; reflexivity|].
  apply (S3.Store_CreatedAt_window (Some test_s3) "test/test.xml" test_xml 20 test_world
           (mkWorld put_env [])
           (mkFileInfo "test/test.xml" "mymusic" "us-east-1" "application/xml" 20 1001)).
  vm_compute. reflexivity.
Defined.

Lemma GetPublicURL_download_name_witness :
  "test.xml" <> "" /\
  Forall (fun c => IsPathSeparator c = false) (String.list_ascii_of_string "test.xml") /\
  S3.GetPublicURL (Some test_s3) ("test" +:+ String slash "test.xml") test_world =
    (mkWorld presign_result.1 [], Returned (S3.url_answer "test/test.xml" presign_result.2)).
Proof.
  split; [discriminate|]. split; [repeat constructor|].
  rewrite (S3.GetPublicURL_download_name test_s3 "test" "test.xml" test_world);
    [vm_compute; reflexivity | discriminate | repeat constructor].
Defined.

(** A service with a logger around the test adapter. *)
Definition logged_test_service : Service := wrap (LogfmtLogger 7) (SvcS3 (Some test_s3)).

Lemma logged_duration_nonneg_witness :
  env_clock (w_env test_world) <=
    env_clock (w_env (fst (Service_Store (SvcS3 (Some test_s3)) "test/test.xml" test_xml 20 test_world))) /\
  exists took, 0 <= took /\
    last (w_logs (fst (Service_Store logged_test_service "test/test.xml" test_xml 20 test_world))) =
      Some (7%nat, store_keyvals "test/test.xml"
                     (fst (named (FileInfo_zero, None)
                        (snd (Service_Store logged_test_service "test/test.xml" test_xml 20 test_world))))
                     (snd (named (FileInfo_zero, None)
                        (snd (Service_Store logged_test_service "test/test.xml" test_xml 20 test_world))))
                     took).
Proof.
  split; [vm_compute; discriminate|].
  apply (logged_duration_nonneg 7 (SvcS3 (Some test_s3)) "test/test.xml" test_xml 20 test_world).
  - vm_compute. discriminate.
  - apply surjective_pairing.
Defined.

Lemma decorate_one_line_per_layer_witness :
  w_logs (fst (Service_Store (SvcS3 (Some test_s3)) "test/test.xml" test_xml 20 test_world)) =
    w_logs test_world /\
  exists lines,
    Service_Store (decorate [1; 2; 3]%nat (SvcS3 (Some test_s3))) "test/test.xml" test_xml 20 test_world =
      (mkWorld (w_env (fst (Service_Store (SvcS3 (Some test_s3)) "test/test.xml" test_xml 20 test_world)))
               (w_logs test_world ++ lines),
       snd (Service_Store (SvcS3 (Some test_s3)) "test/test.xml" test_xml 20 test_world)) /\
    map fst lines = [3; 2; 1]%nat.
Proof.
  split; [vm_compute; reflexivity|].
  apply (decorate_one_line_per_layer [1; 2; 3]%nat (SvcS3 (Some test_s3))). vm_compute. reflexivity.
Defined.

Lemma NewService_unsupported_witness :
  "disk" <> "s3" /\
  Factory.NewService "disk" test_creds (LogfmtLogger 0) test_world =
    (test_world, Returned (SvcNil, Some (ErrWithMessage Factory.ErrUnsupportedType
                                          ("service '" +:+ "disk" +:+ "' unsupported")))).
Proof. split; [discriminate|]. apply Factory.NewService_unsupported. discriminate. Defined.

Lemma NewService_s3_success_witness :
  S3.NewService test_creds test_world =
    (mkWorld (Mem.tick (w_env test_world)) [], Returned (Some test_s3, None)) /\
  Factory.NewService "s3" test_creds (LogfmtLogger 0) test_world =
    (mkWorld (Mem.tick (w_env test_world)) [],
     Returned (SvcLogging (Some (LoggingMiddleware (LogfmtLogger 0) (SvcS3 (Some test_s3)))), None)).
Proof.
  split; [vm_compute; reflexivity|].
  apply (Factory.NewService_s3_success test_creds (LogfmtLogger 0) test_world
           (mkWorld (Mem.tick (w_env test_world)) []) test_s3).
  vm_compute. reflexivity.
Defined.

Lemma NewService_s3_failure_non_nil_witness :
  S3.NewService (creds_with_bucket "bleepbloop") test_world =
    (mkWorld (Mem.tick (w_env test_world)) [],
     Returned (None, Some (ErrWithMessage S3.ErrBucketNotExists "bucket bleepbloop"))) /\
  (Factory.NewService "s3" (creds_with_bucket "bleepbloop") (LogfmtLogger 0) test_world =
     (mkWorld (Mem.tick (w_env test_world)) [],
      Returned (Factory.with_logger (LogfmtLogger 0) (SvcS3 None),
                Some (ErrWithMessage S3.ErrBucketNotExists "bucket bleepbloop"))) /\
   is_nil_interface (Factory.with_logger (LogfmtLogger 0) (SvcS3 None)) = false).
Proof.
  split; [vm_compute; reflexivity|].
  apply Factory.NewService_s3_failure_non_nil. vm_compute. reflexivity.
Defined.

(** A backend outside the repository that stores nothing and always
    succeeds: it implements the contract. *)
Definition null_backend : ServiceImpl :=
  mkServiceImpl (fun fname _ size => go_ret (mkFileInfo fname "" "" "" size 0, None))
                (fun _ => go_ret None)
                (fun fname => go_ret (Some (mkURL "https" "localhost" fname ∅), None)).

Lemma wrap_satisfies_witness :
  satisfies (SvcExternal null_backend) /\
  satisfies (wrap (LogfmtLogger 0) (SvcExternal null_backend)).
Proof.
  assert (Hnull : satisfies (SvcExternal null_backend)).
  { split; intros ? * w;
      (split; [split; [simpl; lia | exists []; simpl; by rewrite app_nil_r] | simpl; eauto]). }
  split; [exact Hnull|]. apply wrap_satisfies. exact Hnull.
Defined.

Lemma factory_handle_usable_iff_no_error_witness :
  Factory.NewService "s3" test_creds (LogfmtLogger 0) test_world =
    (mkWorld (Mem.tick (w_env test_world)) [],
     Returned (Factory.with_logger (LogfmtLogger 0) (SvcS3 (Some test_s3)), None)) /\
  ((None : option error) = None <->
     satisfies (Factory.with_logger (LogfmtLogger 0) (SvcS3 (Some test_s3)))).
Proof.
  split; [vm_compute; reflexivity|].
  apply (factory_handle_usable_iff_no_error "s3" test_creds (LogfmtLogger 0) test_world
           (mkWorld (Mem.tick (w_env test_world)) [])).
  vm_compute. reflexivity.
Defined.

Lemma store_then_read_back_witness :
  env_remote (w_env test_world) !! "mymusic" = Some ∅ /\ "mymusic" <> "" /\
  "test/test.xml" <> "" /\ 0 <= 20 <= Z.of_nat (length test_xml) /\
  20 <= Mem.maxSinglePutObjectSize /\
  exists w' fi,
    S3.Store (Some test_s3) "test/test.xml" test_xml 20 test_world = (w', Returned (fi, None)) /\
    Size fi = 20 /\
    stored test_s3 w' "test/test.xml" =
      Some (mkObject (take (Z.to_nat 20) test_xml) (S3.store_mtype test_world "test/test.xml")).
Proof.
  split; [reflexivity|]. split; [discriminate|]. split; [discriminate|].
  split; [vm_compute; split; discriminate|]. split; [vm_compute; discriminate|].
  apply (store_then_read_back test_s3 ∅ test_world); [reflexivity | discriminate | discriminate
    | vm_compute; split; discriminate | vm_compute; discriminate].
Defined.

Lemma delete_removes_witness :
  env_remote (w_env put_env_world) !! "mymusic" =
    Some {[ "test/test.xml" := mkObject test_xml "application/xml" ]} /\
  exists w',
    S3.Delete (Some test_s3) "test/test.xml" put_env_world = (w', Returned None) /\
    stored test_s3 w' "test/test.xml" = None /\
    (forall k, k <> "test/test.xml" -> stored test_s3 w' k = stored test_s3 put_env_world k).
Proof.
  split; [vm_compute; reflexivity|].
  apply (delete_removes test_s3 {[ "test/test.xml" := mkObject test_xml "application/xml" ]}
           put_env_world); [vm_compute; reflexivity | discriminate | discriminate].
Defined.

Lemma s3_satisfies_witness :
  satisfies (SvcS3 (Some test_s3)) /\
  (forall fname r size w,
     w_logs (fst (Service_Store (SvcS3 (Some test_s3)) fname r size w)) = w_logs w) /\
  (forall fname w, w_logs (fst (Service_Delete (SvcS3 (Some test_s3)) fname w)) = w_logs w) /\
  (forall fname w, w_logs (fst (Service_GetPublicURL (SvcS3 (Some test_s3)) fname w)) = w_logs w).
Proof. exact (@s3_satisfies Mem.mem_minio Mem.mem_minio_laws test_s3). Defined.

(** ** Sessions *)

(** The error the factory returns when the bucket is missing. *)
Definition bucket_missing_err : error := ErrWithMessage S3.ErrBucketNotExists "bucket bleepbloop".

Lemma factory_wf_iff_no_error_witness :
  Factory.NewService "s3" (creds_with_bucket "bleepbloop") (LogfmtLogger 0) test_world =
    (mkWorld (Mem.tick (w_env test_world)) [],
     Returned (Factory.with_logger (LogfmtLogger 0) (SvcS3 None), Some bucket_missing_err)) /\
  (wf_service (Factory.with_logger (LogfmtLogger 0) (SvcS3 None)) = true <->
     Some bucket_missing_err = None).
Proof.
  split; [vm_compute; reflexivity|].
  apply (factory_wf_iff_no_error "s3" (creds_with_bucket "bleepbloop") (LogfmtLogger 0) test_world
           (mkWorld (Mem.tick (w_env test_world)) [])).
  vm_compute. reflexivity.
Defined.

(** A session of the three calls the tests make, in their order. *)
Definition test_ops : list Op :=
  [OpStore "test/test.xml" test_xml 20; OpGetPublicURL "test/test.xml"; OpDelete "test/test.xml"].

Lemma logged_test_service_usable : usable [7%nat] logged_test_service.
Proof. repeat constructor. Qed.

Lemma wf_handle_calls_return_witness :
  usable [7%nat] logged_test_service /\
  exists w' r new,
    run_op logged_test_service (OpStore "test/test.xml" test_xml 20) test_world = (w', Returned r) /\
    w_logs w' = w_logs test_world ++ new /\
    Forall (fun x => fst x ∈ [7%nat]) new.
Proof.
  split; [exact logged_test_service_usable|].
  apply (wf_handle_calls_return [7%nat]). exact logged_test_service_usable.
Defined.

Lemma session_decoration_transparent_witness :
  usable [] (SvcS3 (Some test_s3)) /\ (9 ∉ @nil nat)%nat /\
  exists e' new new' rs,
    other_lines 9 new' = new /\ length (lines_of 9 new') = length test_ops /\
    forall l,
      run_ops (SvcS3 (Some test_s3)) test_ops (mkWorld (w_env test_world) l) =
        (mkWorld e' (l ++ new), Returned rs) /\
      run_ops (wrap (LogfmtLogger 9) (SvcS3 (Some test_s3))) test_ops (mkWorld (w_env test_world) l) =
        (mkWorld e' (l ++ new'), Returned rs).
Proof.
  split; [constructor|]. split; [apply not_elem_of_nil|].
  apply (session_decoration_transparent []); [constructor|apply not_elem_of_nil].
Defined.

(** The result of a call that returned. *)
Definition res_of (o : Outcome Res) : Res :=
  match o with Returned r => r | Panicked _ => RDelete None end.

Definition test_store_op : Op := OpStore "test/test.xml" test_xml 20.

Lemma test_world_typed : remote_typed (w_env test_world).
Proof. apply map_Forall_singleton. apply map_Forall_empty. Qed.

Lemma reachable_objects_typed_witness :
  wf_service logged_test_service = true /\ remote_typed (w_env test_world) /\
  reachable logged_test_service test_world (fst (run_op logged_test_service test_store_op test_world)) /\
  (remote_typed (w_env (fst (run_op logged_test_service test_store_op test_world))) /\
   env_mime (w_env (fst (run_op logged_test_service test_store_op test_world))) =
     env_mime (w_env test_world)).
Proof.
  assert (Hr : reachable logged_test_service test_world
                 (fst (run_op logged_test_service test_store_op test_world))).
  { apply (reach_call _ _ test_world test_store_op _
             (res_of (snd (run_op logged_test_service test_store_op test_world))));
      [apply reach_init | vm_compute; reflexivity]. }
  split; [reflexivity|]. split; [exact test_world_typed|]. split; [exact Hr|].
  exact (reachable_objects_typed logged_test_service test_world _ eq_refl test_world_typed Hr).
Defined.

Lemma NewService_error_cause_witness :
  Factory.NewService "s3" (creds_with_bucket "bleepbloop") (LogfmtLogger 0) test_world =
    (mkWorld (Mem.tick (w_env test_world)) [],
     Returned (Factory.with_logger (LogfmtLogger 0) (SvcS3 None), Some bucket_missing_err)) /\
  ((("s3" : string) <> "s3" /\ Cause bucket_missing_err = Factory.ErrUnsupportedType) \/
   (("s3" : string) = "s3" /\
    (let client := minio_New (Endpoint (creds_with_bucket "bleepbloop"))
                     (ClientID (creds_with_bucket "bleepbloop"))
                     (ClientSecret (creds_with_bucket "bleepbloop"))
                     (UseSSL (creds_with_bucket "bleepbloop")) in
     (exists e0, snd client = Some e0 /\ Cause bucket_missing_err = Cause e0) \/
     (exists e0, snd (snd (BucketExists (fst client) (CredBucket (creds_with_bucket "bleepbloop"))
                             (w_env test_world))) = Some e0 /\
                 Cause bucket_missing_err = Cause e0) \/
     Cause bucket_missing_err = S3.ErrBucketNotExists))).
Proof.
  split; [vm_compute; reflexivity|].
  apply (Factory.NewService_error_cause "s3" (creds_with_bucket "bleepbloop") (LogfmtLogger 0)
           test_world (mkWorld (Mem.tick (w_env test_world)) [])
           (Factory.with_logger (LogfmtLogger 0) (SvcS3 None))).
  vm_compute. reflexivity.
Defined.

(** ** Durations and the handle of a failed construction *)

Lemma test_clock_int64 : in_int64 (env_clock (w_env test_world)).
Proof. unfold in_int64, int64_min, int64_max. simpl. lia. Qed.

Lemma logged_duration_int64_witness :
  in_int64 (env_clock (w_env test_world)) /\
  in_int64 (env_clock (w_env (fst (Service_Store (SvcS3 (Some test_s3)) "test/test.xml" test_xml 20
                                   test_world)))) /\
  exists took,
    last (w_logs (fst (Service_Store logged_test_service "test/test.xml" test_xml 20 test_world))) =
      Some (7%nat, store_keyvals "test/test.xml"
                     (fst (named (FileInfo_zero, None)
                        (snd (Service_Store (SvcS3 (Some test_s3)) "test/test.xml" test_xml 20 test_world))))
                     (snd (named (FileInfo_zero, None)
                        (snd (Service_Store (SvcS3 (Some test_s3)) "test/test.xml" test_xml 20 test_world))))
                     took) /\
    took = Z.max minDuration (Z.min maxDuration
             (env_clock (w_env (fst (Service_Store (SvcS3 (Some test_s3)) "test/test.xml" test_xml 20
                                       test_world))) - env_clock (w_env test_world))) /\
    in_int64 took.
Proof.
  assert (H1 : in_int64 (env_clock (w_env (fst (Service_Store (SvcS3 (Some test_s3))
                                                  "test/test.xml" test_xml 20 test_world))))).
  { vm_compute. split; discriminate. }
  split; [exact test_clock_int64|]. split; [exact H1|].
  exact (logged_duration_int64 7 (SvcS3 (Some test_s3)) "test/test.xml" test_xml 20 test_world
           test_clock_int64 H1).
Defined.

Lemma failed_handle_session_panics_witness :
  S3.NewService (creds_with_bucket "bleepbloop") test_world =
    (mkWorld (Mem.tick (w_env test_world)) [], Returned (None, Some bucket_missing_err)) /\
  exists svc,
    Factory.NewService "s3" (creds_with_bucket "bleepbloop") (LogfmtLogger 3) test_world =
      (mkWorld (Mem.tick (w_env test_world)) [], Returned (svc, Some bucket_missing_err)) /\
    forall op ops w1,
      run_ops svc (op :: ops) w1 =
        (mkWorld (w_env w1) (w_logs w1 ++ [(3%nat, zero_keyvals op)]), Panicked nil_deref_msg).
Proof.
  split; [vm_compute; reflexivity|].
  apply (failed_handle_session_panics (creds_with_bucket "bleepbloop") (LogfmtLogger 3) test_world).
  vm_compute. reflexivity.
Defined.
